(** * dbt-fal experimental adapter: environment flattening, script packaging
      and backend dispatch

    A shallow embedding of
    [projects/adapter/src/dbt/adapters/fal_experimental/adapter.py]:
    - [run_in_koldstart] (lines 153-214), whose two loops merge the stacked
      [target_environments] of a handle into the single environment the
      koldstart API accepts;
    - [_isolated_runner] (lines 47-66), which unpacks the shipped scripts;
    - [run_in_environment_with_adapter] (lines 69-151), the dispatcher.

    Python values are modelled by [pyval], exceptions by [pyexn], fallible
    code by [result]. *)

From stdpp Require Import gmap strings list fin_maps.
From Stdlib Require Import ZArith.

#[local] Set Warnings "-register-all".

(** ** Python values and exceptions *)

(** The values that layer dictionaries are made of.  Dictionaries keep
    their insertion order and have string keys, as the YAML-derived
    environment definitions do. *)
Inductive pyval : Type :=
| PyNone
| PyBool (b : bool)
| PyInt (z : Z)
| PyStr (s : string)
| PyList (items : list pyval)
| PyDict (entries : list (string * pyval)).

(** The exception classes raised by the modelled code and by the standard
    library calls it makes. *)
Inductive pyexn : Type :=
| AttributeError
| TypeError
| KeyError (key : string)
| AssertionError (msg : string)
| RuntimeError (msg : string)
| ValueError (msg : string)
| StructError
| PermissionError
| Exception (msg : string)
| FileExistsError
| FileNotFoundError
| NotADirectoryError
| IsADirectoryError.

Inductive result (A : Type) : Type :=
| Ok (a : A)
| Raise (e : pyexn).
Arguments Ok {A} a.
Arguments Raise {A} e.

#[global] Instance result_ret : MRet result := λ A a, Ok a.
#[global] Instance result_bind : MBind result :=
  λ A B f m, match m with Ok a => f a | Raise e => Raise e end.

(** [for x in xs: acc = body(acc, x)], stopping at the first exception. *)
Fixpoint for_each {A S : Type} (body : S → A → result S) (xs : list A) (acc : S)
  : result S :=
  match xs with
  | [] => Ok acc
  | x :: xs' => acc' ← body acc x; for_each body xs' acc'
  end.

Fixpoint assoc (k : string) (d : list (string * pyval)) : option pyval :=
  match d with
  | [] => None
  | (k', v) :: d' => if String.eqb k k' then Some v else assoc k d'
  end.

(** [v.get(k, dflt)]: only dictionaries have the method. *)
Definition py_get (v : pyval) (k : string) (dflt : pyval) : result pyval :=
  match v with
  | PyDict d => Ok (default dflt (assoc k d))
  | _ => Raise AttributeError
  end.

(** [v[k]] for a string key. *)
Definition py_getitem (v : pyval) (k : string) : result pyval :=
  match v with
  | PyDict d => match assoc k d with Some x => Ok x | None => Raise (KeyError k) end
  | _ => Raise TypeError
  end.

(** Truth value of an object in an [if]. *)
Definition truthy (v : pyval) : bool :=
  match v with
  | PyNone => false
  | PyBool b => b
  | PyInt z => negb (z =? 0)%Z
  | PyStr s => negb (String.eqb s "")
  | PyList items => match items with [] => false | _ => true end
  | PyDict entries => match entries with [] => false | _ => true end
  end.

(** A Python [str] is held as its UTF-8 encoding; a byte [10xxxxxx]
    continues the character begun before it. *)
Definition is_continuation (c : Ascii.ascii) : bool :=
  match c with
  | Ascii.Ascii _ _ _ _ _ _ b6 b7 => b7 && negb b6
  end.

(** The continuation bytes at the head of a string, and the characters
    (code points) after them. *)
Fixpoint split_characters (s : string) : string * list string :=
  match s with
  | EmptyString => (EmptyString, [])
  | String c s' =>
      let '(continuation, characters) := split_characters s' in
      if is_continuation c then (String c continuation, characters)
      else (EmptyString, String c continuation :: characters)
  end.

(** Iterating over a [str] yields its characters, each a [str] of one
    code point. *)
Definition chars (s : string) : list pyval :=
  let '(continuation, characters) := split_characters s in
  PyStr <$> match continuation with
            | EmptyString => characters
            | _ => continuation :: characters
            end.

(** The items that [some_list += v] appends: [list.__iadd__] extends with
    any iterable (a string yields its characters, a dictionary its keys)
    and raises [TypeError] otherwise. *)
Definition py_iter (v : pyval) : result (list pyval) :=
  match v with
  | PyList items => Ok items
  | PyStr s => Ok (chars s)
  | PyDict entries => Ok (PyStr <$> entries.*1)
  | _ => Raise TypeError
  end.

(** ** Flattening the layer stack ([run_in_koldstart], lines 182-211) *)

(** Body of the loop at lines 184-186:
[[
    if env.get("configuration", {}).get("requirements"):
        requirements += env["configuration"]["requirements"]
]] *)
Definition virtualenv_step (requirements : list pyval) (env : pyval)
  : result (list pyval) :=
  cfg ← py_get env "configuration" (PyDict []);
  r ← py_get cfg "requirements" PyNone;
  if truthy r then
    c ← py_getitem env "configuration";
    v ← py_getitem c "requirements";
    extra ← py_iter v;
    Ok (requirements ++ extra)
  else Ok requirements.

(** Body of the loop at lines 198-202, on [env_dict["dependencies"]]:
[[
    if env.get("configuration", {}).get("packages"):
        env_dict["dependencies"] += env["configuration"]["packages"]
    if env.get("configuration", {}).get("requirements"):
        env_dict["dependencies"].append({"pip": env["configuration"]["requirements"]})
]] *)
Definition conda_step (dependencies : list pyval) (env : pyval)
  : result (list pyval) :=
  cfg ← py_get env "configuration" (PyDict []);
  p ← py_get cfg "packages" PyNone;
  dependencies ←
    (if truthy p then
       c ← py_getitem env "configuration";
       v ← py_getitem c "packages";
       extra ← py_iter v;
       Ok (dependencies ++ extra)
     else Ok dependencies);
  cfg ← py_get env "configuration" (PyDict []);
  r ← py_get cfg "requirements" PyNone;
  if truthy r then
    c ← py_getitem env "configuration";
    v ← py_getitem c "requirements";
    Ok (dependencies ++ [PyDict [("pip", v)]])
  else Ok dependencies.

(** The [env_dict] of lines 193-197 with its dependency list filled in. *)
Definition env_dict (dependencies : list pyval) : pyval :=
  PyDict [("name", PyStr "dbt_fal_env");
          ("channels", PyList [PyStr "conda-forge"; PyStr "defaults"]);
          ("dependencies", PyList dependencies)].

(** The keyword arguments with which [isolated(...)] is called, apart from
    [host] and [machine_type]. *)
Inductive isolated_env : Type :=
| IsolatedVirtualenv (requirements : list pyval)
| IsolatedConda (env_dict : pyval).

(** The [if]/[elif]/[else] of lines 182-211 up to the [isolated(...)]
    calls: the single environment handed to koldstart. *)
Definition flatten_target_environments
    (target_env_type : string) (target_environments : list pyval)
  : result isolated_env :=
  if decide (target_env_type = "virtualenv") then
    requirements ← for_each virtualenv_step target_environments [];
    Ok (IsolatedVirtualenv requirements)
  else if decide (target_env_type = "conda") then
    dependencies ← for_each conda_step target_environments [];
    Ok (IsolatedConda (env_dict dependencies))
  else
    Raise (Exception ("Environment type not supported: " +:+ target_env_type)).

(** ** Layers as the environment definitions build them

    A layer is a dictionary [{"kind": ..., "configuration": {...}}] whose
    configuration may carry a list of pip [requirements] and a list of
    conda [packages]; each key may be absent. *)
Record layer_configuration : Type := LayerConfiguration {
  requirements : option (list string);
  packages : option (list string)
}.

Record layer : Type := Layer {
  kind : string;
  configuration : option layer_configuration
}.

Definition str_list (l : list string) : pyval := PyList (PyStr <$> l).

Definition optional_entry (k : string) (o : option (list string))
  : list (string * pyval) :=
  match o with
  | Some l => [(k, str_list l)]
  | None => []
  end.

Definition configuration_to_py (c : layer_configuration) : pyval :=
  PyDict (optional_entry "requirements" (requirements c)
          ++ optional_entry "packages" (packages c)).

Definition layer_to_py (l : layer) : pyval :=
  PyDict (("kind", PyStr (kind l))
          :: match configuration l with
             | Some c => [("configuration", configuration_to_py c)]
             | None => []
             end).

(** The requirement strings a layer declares, [[]] when the key (or the
    whole configuration) is absent. *)
Definition layer_requirements (l : layer) : list string :=
  default [] (configuration l ≫= requirements).

Definition layer_packages (l : layer) : list string :=
  default [] (configuration l ≫= packages).

(** The nested pip entry a layer contributes to a conda dependency list. *)
Definition pip_entry (l : layer) : list pyval :=
  match layer_requirements l with
  | [] => []
  | r => [PyDict [("pip", str_list r)]]
  end.

Definition conda_dependencies (l : layer) : list pyval :=
  (PyStr <$> layer_packages l) ++ pip_entry l.

(** A layer with its [kind] tag replaced. *)
Definition retag (f : layer → string) (l : layer) : layer :=
  {| kind := f l; configuration := configuration l |}.

(** A layer with the [packages] key removed from its configuration. *)
Definition without_packages (l : layer) : layer :=
  {| kind := kind l;
     configuration :=
       (λ c, {| requirements := requirements c; packages := None |})
         <$> configuration l |}.

(** Two layers declare the same requirements and packages; an absent key
    and a key holding the empty list are not told apart. *)
Definition same_declarations (l l' : layer) : Prop :=
  layer_requirements l = layer_requirements l'
  ∧ layer_packages l = layer_packages l'.


Definition supported_kind (k : string) : bool :=
  String.eqb k "virtualenv" || String.eqb k "conda".

(** Reading a flattened environment back. *)
Definition spec_dependencies (e : isolated_env) : list pyval :=
  match e with
  | IsolatedConda (PyDict d) =>
      match assoc "dependencies" d with
      | Some (PyList deps) => deps
      | _ => []
      end
  | _ => []
  end.


Definition is_pip_entry (entry : pyval) : bool :=
  match entry with
  | PyDict d => bool_decide (is_Some (assoc "pip" d))
  | _ => false
  end.



Definition declares_requirements (l : layer) : bool :=
  match layer_requirements l with [] => false | _ => true end.

(** ** Stateful code

    Code that acts on a filesystem or on a mutable handle is a function
    from the state before to the state after and an outcome; an exception
    leaves the state as it was when it was raised. *)
Definition action (S A : Type) : Type := S → S * result A.

#[global] Instance action_ret {S} : MRet (action S) := λ A a s, (s, Ok a).
#[global] Instance action_bind {S} : MBind (action S) :=
  λ A B f m s, match m s with
               | (s', Ok a) => f a s'
               | (s', Raise e) => (s', Raise e)
               end.

Definition raise {S A : Type} (e : pyexn) : action S A := λ s, (s, Raise e).
Definition get_state {S : Type} : action S S := λ s, (s, Ok s).
Definition lift {S A : Type} (r : result A) : action S A := λ s, (s, r).

Fixpoint for_each_do {S A : Type} (body : A → action S ()) (xs : list A)
  : action S () :=
  match xs with
  | [] => mret ()
  | x :: xs' => body x ≫= λ _, for_each_do body xs'
  end.

(** ** Filesystem

    A path is the list of its components below the filesystem root, the
    root itself being [[]].  A filesystem maps the paths that exist to
    what is there. *)
Abbreviation path := (list string).
Abbreviation bytes := (list Byte.byte).

#[global] Instance byte_eq_dec : EqDecision Byte.byte := Byte.byte_eq_dec.

Inductive node : Type :=
| Dir
| File (data : bytes).

#[global] Instance node_eq_dec : EqDecision node.
Proof. solve_decision. Defined.

Abbreviation filesystem := (gmap path node).

(** [p.parent]; the root is its own parent. *)
Definition parent (p : path) : path := take (length p - 1) p.

(** ["/" + "/".join(p)] *)
Definition path_str (p : path) : string := "/" +:+ String.concat "/" p.

Definition path_exists (fs : filesystem) (p : path) : bool :=
  bool_decide (is_Some (fs !! p)).

Definition is_dir (fs : filesystem) (p : path) : bool :=
  bool_decide (fs !! p = Some Dir).

(** [os.mkdir(p)] *)
Definition os_mkdir (p : path) : action filesystem () := λ fs,
  match fs !! p with
  | Some _ => (fs, Raise FileExistsError)
  | None =>
      match fs !! parent p with
      | None => (fs, Raise FileNotFoundError)
      | Some (File _) => (fs, Raise NotADirectoryError)
      | Some Dir => (<[p := Dir]> fs, Ok ())
      end
  end.

(** [open(p, "wb").write(data)] *)
Definition write_file (p : path) (data : bytes) : action filesystem () := λ fs,
  match fs !! p with
  | Some Dir => (fs, Raise IsADirectoryError)
  | _ =>
      match fs !! parent p with
      | None => (fs, Raise FileNotFoundError)
      | Some (File _) => (fs, Raise NotADirectoryError)
      | Some Dir => (<[p := File data]> fs, Ok ())
      end
  end.

(** Creating the directories [base/n1], [base/n1/n2], ... that are not
    there yet, as [os.makedirs] and [Path.mkdir(parents=True,
    exist_ok=True)] do; a regular file in the way is an error. *)
Fixpoint makedirs_from (base : path) (names : list string)
  : action filesystem () := λ fs,
  match names with
  | [] => (fs, Ok ())
  | name :: rest =>
      let p := base ++ [name] in
      match fs !! p with
      | None => makedirs_from p rest (<[p := Dir]> fs)
      | Some Dir => makedirs_from p rest fs
      | Some (File _) =>
          (fs, Raise match rest with [] => FileExistsError | _ => NotADirectoryError end)
      end
  end.

Definition makedirs (p : path) : action filesystem () := makedirs_from [] p.

(** ** Archives

    A zip archive is the sequence of its members; a member has a name
    relative to the archive root, held as the components of its filename
    between the ["/"] separators, and is a directory entry or a file entry
    with its data.  The deflate container around the members belongs to
    [zipfile] and is left out. *)
Record zip_member : Type := ZipMember {
  arcname : path;
  content : node
}.

#[global] Instance zip_member_eq_dec : EqDecision zip_member.
Proof. solve_decision. Defined.

Abbreviation archive := (list zip_member).

(** The [invalid_path_parts] that [ZipFile._extract_member] removes from a
    member name: empty, ["."] and [".."] components. *)
Definition sanitize (name : path) : path :=
  filter (λ x, x ∉ [""; "."; ".."]) name.

(** [ZipFile._extract_member(member, targetpath)]: the member name is
    cleaned of its invalid parts and joined to the target path, the upper
    directories are created when missing, then a directory entry makes its
    directory unless it is there and a file entry is written. *)
Definition extract_member (targetpath : path) (member : zip_member)
  : action filesystem () :=
  let target := targetpath ++ sanitize (arcname member) in
  let upperdirs := parent target in
  fs ← get_state;
  (if negb (path_exists fs upperdirs) then makedirs upperdirs else mret ()) ≫= λ _,
  match content member with
  | Dir =>
      fs ← get_state;
      if is_dir fs target then mret () else os_mkdir target
  | File data => write_file target data
  end.

(** [zip_file.extractall(path)] *)
Definition extractall (targetpath : path) (zip : archive) : action filesystem () :=
  for_each_do (extract_member targetpath) zip.

(** Lines 59-64 of [_isolated_runner]. *)
Definition unpack_local_packages (local_packages : option archive)
    (fal_scripts_path : path) : action filesystem () :=
  match local_packages with
  | Some zip =>
      fs ← get_state;
      if path_exists fs fal_scripts_path then
        raise (AssertionError ("Path: " +:+ path_str fal_scripts_path
                               +:+ " already exists in isolate cloud."))
      else
        makedirs (parent fal_scripts_path) ≫= λ _,
        extractall fal_scripts_path zip
  | None => mret ()
  end.

(** [fal_scripts_path.rglob("*")]: every path strictly below the root. *)
Definition rglob (root : path) (fs : filesystem) : list path :=
  filter (λ p, root `prefix_of` p ∧ p ≠ root) (map_to_list fs).*1.

(** [entry.relative_to(root)] for an entry below the root. *)
Definition relative_to (root entry : path) : path := drop (length root) entry.

(** [zip_file.write(entry, arcname)]: the entry is looked up, then its
    metadata and data are read, which raises for an entry that [zipfile]
    cannot archive ([ValueError] for a modification time before 1980, an
    [OSError] such as [PermissionError] for an unreadable entry);
    [read_entry] gives the outcome of that reading. *)
Definition zip_write (read_entry : path → result ()) (fs : filesystem)
    (entry arcname : path) (zip : archive) : result archive :=
  match fs !! entry with
  | Some n => _ ← read_entry entry; Ok (zip ++ [ZipMember arcname n])
  | None => Raise FileNotFoundError
  end.

(** Reading under the default [strict_timestamps=True] on a host where
    every entry is readable: [year] gives the year of an entry's
    modification time, which the zip header stores from 1980 to 2107
    ([struct.error] beyond). *)
Definition strict_timestamps (year : path → Z) (entry : path) : result () :=
  if (year entry <? 1980)%Z then
    Raise (ValueError "ZIP does not support timestamps before 1980")
  else if (2107 <? year entry)%Z then Raise StructError
  else Ok ().

(** Lines 103-113 of [run_in_environment_with_adapter]:
    [compressed_local_packages]. *)
Definition compress_local_packages (read_entry : path → result ())
    (fs : filesystem) (fal_scripts_path : path) : result (option archive) :=
  if path_exists fs fal_scripts_path then
    zip ← for_each
            (λ zip entry,
               zip_write read_entry fs entry
                 (relative_to fal_scripts_path entry) zip)
            (rglob fal_scripts_path fs) [];
    Ok (Some zip)
  else Ok None.

(** ** Well-formed filesystems and archives *)

(** The root is a directory and whatever exists lies in a directory. *)
Definition well_formed (fs : filesystem) : Prop :=
  fs !! [] = Some Dir
  ∧ map_Forall (λ p _, p = [] ∨ fs !! parent p = Some Dir) fs.

(** No regular file sits at [base/n1], [base/n1/n2], ... *)
Fixpoint no_file_from (fs : filesystem) (base : path) (names : list string)
  : bool :=
  match names with
  | [] => true
  | name :: rest =>
      match fs !! (base ++ [name]) with
      | Some (File _) => false
      | _ => no_file_from fs (base ++ [name]) rest
      end
  end.

(** The path can be made a directory: no regular file is in the way. *)
Definition creatable (fs : filesystem) (p : path) : bool := no_file_from fs [] p.






(** The number of characters of a [str]: the bytes of its encoding that
    begin one. *)
Fixpoint character_count (s : string) : nat :=
  match s with
  | EmptyString => 0
  | String c s' => (if is_continuation c then 0 else 1) + character_count s'
  end.

(** The encoding does not begin in the middle of a character. *)
Definition begins_character (s : string) : bool :=
  match s with
  | EmptyString => true
  | String c _ => negb (is_continuation c)
  end.




(** A project directory with a script and a package, and a host that has
    only [/srv]. *)
Definition example_source : filesystem :=
  list_to_map
    [([], Dir); (["proj"], Dir); (["proj"; "scripts"], Dir);
     (["proj"; "scripts"; "a.py"], File [Byte.x61]);
     (["proj"; "scripts"; "pkg"], Dir);
     (["proj"; "scripts"; "pkg"; "b.py"], File [Byte.x62; Byte.x63])].

Definition example_host : filesystem :=
  list_to_map [([], Dir); (["srv"], Dir)].

Definition example_archive : archive :=
  [ZipMember ["pkg"; "b.py"] (File [Byte.x62; Byte.x63]);
   ZipMember ["a.py"] (File [Byte.x61]);
   ZipMember ["pkg"] Dir].

(** ** Handles, configuration and requests *)

(** [type(environment)]: the two remote-service classes, or any other
    [BaseEnvironment] subclass. *)
Inductive environment_class : Type :=
| IsolateServer
| KoldstartDummyServer
| LocalEnvironment (class_name : string).

#[global] Instance environment_class_eq_dec : EqDecision environment_class.
Proof. solve_decision. Defined.

(** The attributes of the handle that the adapter reads;
    [target_environments] is the list it appends to. *)
Record environment : Type := Environment {
  env_class : environment_class;
  host : string;
  creds : string;
  target_env_type : string;
  target_environments : list pyval;
  machine_type : string
}.

(** [config.credentials]: [type(...).__name__] and [str(....method)]. *)
Record credentials : Type := Credentials {
  credentials_class : string;
  method : string
}.

Record runtime_config : Type := RuntimeConfig {
  config_credentials : credentials;
  config_project : string
}.

Section adapter.

(** Types of the collaborating libraries. *)
Context {Manifest MacroManifest Adapter AdapterResponse ConnectionKey : Type}.

(** [partial(_isolated_runner, code, config, manifest, macro_manifest,
    local_packages=...)] *)
Record execution_request : Type := ExecutionRequest {
  request_code : string;
  request_config : runtime_config;
  request_manifest : Manifest;
  request_macro_manifest : MacroManifest;
  local_packages : option archive
}.

(** The calls into the isolation libraries, in the order they are made. *)
Inductive call : Type :=
| EnvironmentCreate (env : environment)
| OpenConnection (env : environment) (key : ConnectionKey)
| StageCreate (deps : list string)
| PythonIPC (env : environment) (key : ConnectionKey)
    (extra_inheritance_paths : list path)
| ConnectionRun (request : execution_request)
| CloseConnection
| IsolatedFunction (url credentials : string) (spec : isolated_env)
    (machine : string) (request : execution_request).

(** What the dispatcher acts on: the handle it was given and the calls
    made so far. *)
Record world : Type := World {
  handle : environment;
  calls : list call
}.

(** Collaborators outside this file: helpers of the package
    ([get_fal_scripts_path], [get_default_pip_dependencies],
    [reconstruct_adapter]), the user's entry point run by
    [run_with_adapter] (lines 35-44), the outcome of reading an entry of
    the calling host for [zip_file.write], and the outcomes of the calls
    into the isolation libraries. *)
Context (read_entry : path → result ())
        (get_fal_scripts_path : runtime_config → path)
        (get_default_pip_dependencies : string → bool → list string)
        (reconstruct_adapter :
           runtime_config → Manifest → MacroManifest → result Adapter)
        (run_with_adapter :
           string → Adapter → runtime_config → action filesystem AdapterResponse)
        (environment_create : environment → result ConnectionKey)
        (stage_create : list string → result path)
        (connection_run :
           environment → ConnectionKey → execution_request → result AdapterResponse)
        (ipc_run :
           environment → ConnectionKey → list path → execution_request
           → result AdapterResponse)
        (isolated_function :
           string → string → isolated_env → string → execution_request
           → result AdapterResponse).

(** [_isolated_runner] (lines 47-66), run on the executing host. *)
Definition _isolated_runner (request : execution_request)
  : action filesystem AdapterResponse :=
  let config := request_config request in
  adapter ← lift (reconstruct_adapter config (request_manifest request)
                    (request_macro_manifest request));
  let fal_scripts_path := get_fal_scripts_path config in
  unpack_local_packages (local_packages request) fal_scripts_path ≫= λ _,
  run_with_adapter (request_code request) adapter config.

Definition record_call {A : Type} (c : call) (outcome : result A)
  : action world A :=
  λ w, ({| handle := handle w; calls := calls w ++ [c] |}, outcome).

(** [environment.target_environments.append(extra_config)] *)
Definition append_target_environment (extra_config : pyval) : action world () :=
  λ w,
    let env := handle w in
    ({| handle := {| env_class := env_class env;
                     host := host env;
                     creds := creds env;
                     target_env_type := target_env_type env;
                     target_environments := target_environments env ++ [extra_config];
                     machine_type := machine_type env |};
        calls := calls w |}, Ok ()).

(** [with manager as connection: return connection.run(execute_model)] *)
Definition with_connection (manager : call)
    (run : execution_request → result AdapterResponse)
    (execute_model : execution_request) : action world AdapterResponse :=
  λ w, ({| handle := handle w;
           calls := calls w
                    ++ [manager; ConnectionRun execute_model; CloseConnection] |},
        run execute_model).

(** [run_in_koldstart] (lines 153-214). *)
Definition run_in_koldstart (code : string) (config : runtime_config)
    (manifest : Manifest) (macro_manifest : MacroManifest)
    (local_packages : option archive) : action world AdapterResponse :=
  let execute_model :=
    ExecutionRequest code config manifest macro_manifest local_packages in
  w ← get_state;
  let environment := handle w in
  spec ← lift (flatten_target_environments (target_env_type environment)
                 (target_environments environment));
  record_call
    (IsolatedFunction (host environment) (creds environment) spec
       (machine_type environment) execute_model)
    (isolated_function (host environment) (creds environment) spec
       (machine_type environment) execute_model).

(** [run_in_environment_with_adapter] (lines 69-151); [fs] is the
    filesystem of the calling host. *)
Definition run_in_environment_with_adapter (fs : filesystem) (code : string)
    (config : runtime_config) (manifest : Manifest)
    (macro_manifest : MacroManifest) (adapter_type : string)
  : action world AdapterResponse :=
  w ← get_state;
  if bool_decide (env_class (handle w) ∈ [IsolateServer; KoldstartDummyServer]) then
    if bool_decide (credentials_class (config_credentials config) = "BigQueryCredentials")
       && bool_decide (method (config_credentials config) = "service-account")
    then
      raise (RuntimeError
               ("BigQuery credential method `service-account` is not supported."
                +:+ " Please use `service-account-json` instead"))
    else
      let deps := get_default_pip_dependencies adapter_type true in
      let extra_config :=
        PyDict [("kind", PyStr "virtualenv");
                ("configuration", PyDict [("requirements", str_list deps)])] in
      append_target_environment extra_config ≫= λ _,
      w ← get_state;
      key ← record_call (EnvironmentCreate (handle w)) (environment_create (handle w));
      let fal_scripts_path := get_fal_scripts_path config in
      compressed_local_packages ←
        lift (compress_local_packages read_entry fs fal_scripts_path);
      if bool_decide (env_class (handle w) = KoldstartDummyServer) then
        run_in_koldstart code config manifest macro_manifest
          compressed_local_packages
      else
        with_connection (OpenConnection (handle w) key)
          (connection_run (handle w) key)
          (ExecutionRequest code config manifest macro_manifest
             compressed_local_packages)
  else
    let deps := get_default_pip_dependencies adapter_type false in
    let fal_scripts_path := get_fal_scripts_path config in
    key ← record_call (EnvironmentCreate (handle w)) (environment_create (handle w));
    venv ← record_call (StageCreate deps) (stage_create deps);
    with_connection (PythonIPC (handle w) key [fal_scripts_path; venv])
      (ipc_run (handle w) key [fal_scripts_path; venv])
      (ExecutionRequest code config manifest macro_manifest None).

End adapter.

(** ** Notions used to state further properties *)

(** The requirement list of a virtualenv environment, the dependency list
    of a conda one. *)
Definition flattened_items (e : isolated_env) : list pyval :=
  match e with
  | IsolatedVirtualenv rs => rs
  | IsolatedConda _ => spec_dependencies e
  end.

Definition is_dict (v : pyval) : bool :=
  match v with
  | PyDict _ => true
  | _ => false
  end.

(** The layer appended at lines 92-97 for the default dependencies. *)
Definition default_dependencies_layer (deps : list string) : pyval :=
  PyDict [("kind", PyStr "virtualenv");
          ("configuration", PyDict [("requirements", str_list deps)])].

(** The handle after [target_environments.append(extra)]. *)
Definition with_target_environment (env : environment) (extra : pyval)
  : environment :=
  {| env_class := env_class env;
     host := host env;
     creds := creds env;
     target_env_type := target_env_type env;
     target_environments := target_environments env ++ [extra];
     machine_type := machine_type env |}.

(** The test of line 83. *)
Definition unsupported_credentials (config : runtime_config) : bool :=
  bool_decide (credentials_class (config_credentials config) = "BigQueryCredentials")
  && bool_decide (method (config_credentials config) = "service-account").

(** A layer on which [env.get("configuration", {}).get(...)] has no
    [get] method to call: not a dictionary, or one whose configuration is
    not a dictionary ([None], a string, a list). *)
Definition malformed_layer (env : pyval) : bool :=
  match env with
  | PyDict d =>
      match assoc "configuration" d with
      | Some v => negb (is_dict v)
      | None => false
      end
  | _ => true
  end.

(** The handles that take the remote-service branch (line 82). *)
Definition is_remote (env : environment) : Prop :=
  env_class env = IsolateServer ∨ env_class env = KoldstartDummyServer.

(** A configuration with accepted credentials, a remote handle with one
    user layer, and a dispatcher whose collaborators answer with fixed
    values. *)
Definition example_config : runtime_config :=
  RuntimeConfig (Credentials "SnowflakeCredentials" "password") "demo".

Definition example_handle (c : environment_class) (t : string) : environment :=
  Environment c "https://host" "key" t
    [layer_to_py (Layer t (Some (LayerConfiguration (Some ["pandas"]) None)))]
    "S".

Definition example_world (c : environment_class) (t : string)
  : @world () () nat :=
  World (example_handle c t) [].

Definition example_dispatch (create : environment → result nat)
    (w : @world () () nat) : @world () () nat * result string :=
  run_in_environment_with_adapter (λ _, Ok ())
    (λ _, ["project"; "fal_scripts"]) (λ _ _, ["dbt-core"])
    create (λ _, Ok ["venv"]) (λ _ _ _, Ok "remote") (λ _ _ _ _, Ok "local")
    (λ _ _ _ _ _, Ok "koldstart")
    ∅ "def main(): pass" example_config () () "snowflake" w.

(** An action that leaves a well-formed filesystem well formed, whether
    it returns or raises. *)
Definition keeps_well_formed {A : Type} (act : action filesystem A) : Prop :=
  ∀ fs, well_formed fs → well_formed (act fs).1.

(* ================================================================== *)
(** * Theorems *)

(** ** Flattening *)

Lemma virtualenv_step_layer (acc : list pyval) (l : layer) :
  virtualenv_step acc (layer_to_py l) = Ok (acc ++ (PyStr <$> layer_requirements l)).
Proof.
  destruct l as [k [[[[|r rs]|] [ps|]]|]]; cbn; rewrite ?app_nil_r; reflexivity.
Qed.

Lemma conda_step_layer (acc : list pyval) (l : layer) :
  conda_step acc (layer_to_py l) = Ok (acc ++ conda_dependencies l).
Proof.
  destruct l as [k [[[[|r rs]|] [[|p ps]|]]|]]; cbn;
    rewrite ?app_nil_r, <- ?app_assoc; reflexivity.
Qed.

Lemma for_each_layers (step : list pyval → pyval → result (list pyval))
    (contribution : layer → list pyval) :
  (∀ acc l, step acc (layer_to_py l) = Ok (acc ++ contribution l)) →
  ∀ ls acc,
    for_each step (layer_to_py <$> ls) acc
    = Ok (acc ++ concat (contribution <$> ls)).
Proof.
  intros Hstep ls. induction ls as [|l ls IH]; intros acc; cbn.
  - by rewrite app_nil_r.
  - rewrite Hstep. cbn. rewrite IH. by rewrite <- app_assoc.
Qed.

Lemma flatten_virtualenv_layers (ls : list layer) :
  flatten_target_environments "virtualenv" (layer_to_py <$> ls)
  = Ok (IsolatedVirtualenv (PyStr <$> concat (layer_requirements <$> ls))).
Proof.
  unfold flatten_target_environments. rewrite decide_True by done.
  rewrite (for_each_layers virtualenv_step (λ l, PyStr <$> layer_requirements l))
    by apply virtualenv_step_layer.
  cbn. do 2 f_equal. induction ls as [|l ls IH]; cbn; [done|].
  by rewrite fmap_app, IH.
Qed.

Lemma flatten_conda_layers (ls : list layer) :
  flatten_target_environments "conda" (layer_to_py <$> ls)
  = Ok (IsolatedConda (env_dict (concat (conda_dependencies <$> ls)))).
Proof.
  unfold flatten_target_environments.
  rewrite decide_False by done. rewrite decide_True by done.
  by rewrite (for_each_layers conda_step conda_dependencies)
    by apply conda_step_layer.
Qed.

Lemma flatten_unsupported (t : string) (envs : list pyval) :
  t ≠ "virtualenv" → t ≠ "conda" →
  flatten_target_environments t envs
  = Raise (Exception ("Environment type not supported: " +:+ t)).
Proof.
  intros Hv Hc. unfold flatten_target_environments.
  by rewrite !decide_False by done.
Qed.

(** C1: under a virtualenv-typed handle the flattened requirements are the
    concatenation, in stack order and with duplicates kept, of every
    layer's requirement list; the two-layer pandas/numpy stack flattens to
    [["pandas", "numpy", "pandas"]]. *)
Theorem virtualenv_requirements_concatenated :
  (∀ ls : list layer,
     flatten_target_environments "virtualenv" (layer_to_py <$> ls)
     = Ok (IsolatedVirtualenv (PyStr <$> concat (layer_requirements <$> ls))))
  ∧ flatten_target_environments "virtualenv"
      [PyDict [("kind", PyStr "virtualenv");
               ("configuration",
                PyDict [("requirements", PyList [PyStr "pandas"])])];
       PyDict [("kind", PyStr "virtualenv");
               ("configuration",
                PyDict [("requirements",
                         PyList [PyStr "numpy"; PyStr "pandas"])])]]
    = Ok (IsolatedVirtualenv [PyStr "pandas"; PyStr "numpy"; PyStr "pandas"]).
Proof.
  split; [apply flatten_virtualenv_layers | reflexivity].
Qed.


Lemma concat_fmap_ext {A B : Type} (R : A → A → Prop) (f : A → list B)
    (l l' : list A) :
  (∀ a a', R a a' → f a = f a') →
  Forall2 R l l' → concat (f <$> l) = concat (f <$> l').
Proof.
  intros Hf. induction 1 as [|a a' l l' HR _ IH]; cbn; [done|].
  by rewrite (Hf _ _ HR), IH.
Qed.

Lemma pip_entries_count (ls : list layer) :
  length (List.filter is_pip_entry (concat (conda_dependencies <$> ls)))
  = length (List.filter declares_requirements ls).
Proof.
  induction ls as [|l ls IH]; cbn; [done|].
  unfold conda_dependencies at 1. rewrite !List.filter_app, !length_app, IH.
  assert (List.filter is_pip_entry (PyStr <$> layer_packages l) = []) as ->.
  { induction (layer_packages l) as [|p ps IHp]; cbn; auto. }
  unfold pip_entry, declares_requirements.
  destruct (layer_requirements l); reflexivity.
Qed.

(** C2: under a conda-typed handle the descriptor is the fixed skeleton
    whose dependency list receives, layer by layer, the layer's packages
    followed by one [{"pip": [...]}] entry when the layer declares a
    (non-empty) requirement list; the entries are never merged, so there
    are as many of them as such layers. *)
Theorem conda_dependencies_per_layer :
  (∀ ls : list layer, ∃ deps : list pyval,
     flatten_target_environments "conda" (layer_to_py <$> ls)
     = Ok (IsolatedConda
             (PyDict [("name", PyStr "dbt_fal_env");
                      ("channels", PyList [PyStr "conda-forge"; PyStr "defaults"]);
                      ("dependencies", PyList deps)]))
     ∧ deps = concat ((λ l, (PyStr <$> layer_packages l) ++ pip_entry l) <$> ls)
     ∧ length (List.filter is_pip_entry deps)
       = length (List.filter declares_requirements ls))
  ∧ flatten_target_environments "conda"
      [PyDict [("kind", PyStr "conda");
               ("configuration",
                PyDict [("packages", PyList [PyStr "python=3.9"]);
                        ("requirements", PyList [PyStr "scikit-learn"])])];
       PyDict [("kind", PyStr "conda");
               ("configuration",
                PyDict [("packages", PyList [PyStr "numpy"])])]]
    = Ok (IsolatedConda
            (PyDict [("name", PyStr "dbt_fal_env");
                     ("channels", PyList [PyStr "conda-forge"; PyStr "defaults"]);
                     ("dependencies",
                      PyList [PyStr "python=3.9";
                              PyDict [("pip", PyList [PyStr "scikit-learn"])];
                              PyStr "numpy"])])).
Proof.
  split; [|reflexivity].
  intros ls. exists (concat (conda_dependencies <$> ls)).
  split; [apply flatten_conda_layers|]. split; [done|apply pip_entries_count].
Qed.

(** C3, as stated, fails: a stack holding a layer of unrecognized kind
    flattens without error under a virtualenv-typed handle. *)
Lemma unrecognized_layer_kind_not_rejected :
  ¬ (∀ (t : string) (ls : list layer),
       (∃ l, l ∈ ls ∧ supported_kind (kind l) = false) →
       ∃ e, flatten_target_environments t (layer_to_py <$> ls) = Raise e).
Proof.
  intros H.
  destruct (H "virtualenv"
              [Layer "docker" (Some (LayerConfiguration (Some ["pandas"]) None))])
    as [e He].
  - eexists. split; [apply list_elem_of_here | reflexivity].
  - discriminate He.
Qed.

(** C3, amended: flattening fails exactly on the handle's
    [target_env_type]: when it is neither ["virtualenv"] nor ["conda"] an
    [Exception] naming the type is raised, whatever the stack holds. *)
Theorem unsupported_target_env_type_raises (t : string) (envs : list pyval) :
  t ≠ "virtualenv" → t ≠ "conda" →
  flatten_target_environments t envs
  = Raise (Exception ("Environment type not supported: " +:+ t)).
Proof. apply flatten_unsupported. Qed.

Lemma unsupported_target_env_type_raises_witness :
  flatten_target_environments "docker"
    [layer_to_py (Layer "virtualenv" (Some (LayerConfiguration (Some ["pandas"]) None)))]
  = Raise (Exception "Environment type not supported: docker").
Proof.
  apply (unsupported_target_env_type_raises "docker"); discriminate.
Defined.

Lemma supported_kind_cases (k : string) :
  supported_kind k = true → k = "virtualenv" ∨ k = "conda".
Proof.
  unfold supported_kind. intros [H|H]%orb_true_iff; apply String.eqb_eq in H; auto.
Qed.




Lemma flatten_layers_ext (R : layer → layer → Prop) (t : string)
    (ls ls' : list layer) :
  (∀ l l', R l l' → layer_requirements l = layer_requirements l') →
  (t = "conda" → ∀ l l', R l l' → layer_packages l = layer_packages l') →
  Forall2 R ls ls' →
  flatten_target_environments t (layer_to_py <$> ls)
  = flatten_target_environments t (layer_to_py <$> ls').
Proof.
  intros Hr Hp HR.
  destruct (decide (t = "virtualenv")) as [->|Hv];
    [|destruct (decide (t = "conda")) as [->|Hc]].
  - rewrite !flatten_virtualenv_layers. do 3 f_equal.
    by apply (concat_fmap_ext R).
  - rewrite !flatten_conda_layers. do 3 f_equal.
    apply (concat_fmap_ext R); [|done].
    intros l l' Hl. unfold conda_dependencies, pip_entry.
    by rewrite (Hr _ _ Hl), (Hp eq_refl _ _ Hl).
  - by rewrite !flatten_unsupported.
Qed.

Lemma Forall2_fmap_self {A : Type} (R : A → A → Prop) (f : A → A) (l : list A) :
  (∀ a, R (f a) a) → Forall2 R (f <$> l) l.
Proof. intros Hf. induction l; cbn; constructor; auto. Qed.

(** C8: the merge rule depends on the handle's [target_env_type] alone.
    Retagging the layers of a stack arbitrarily never changes the outcome;
    under a virtualenv-typed handle every stack flattens without error and
    its [packages] entries do not matter; under a conda-typed handle a
    stack retagged ["virtualenv"] is merged from its configuration fields
    as any other. *)
Theorem flatten_ignores_layer_kind (t : string) (ls : list layer)
    (f : layer → string) :
  flatten_target_environments t (layer_to_py <$> (retag f <$> ls))
  = flatten_target_environments t (layer_to_py <$> ls)
  ∧ (∃ rs, flatten_target_environments "virtualenv" (layer_to_py <$> ls)
           = Ok (IsolatedVirtualenv rs))
  ∧ flatten_target_environments "virtualenv" (layer_to_py <$> (without_packages <$> ls))
    = flatten_target_environments "virtualenv" (layer_to_py <$> ls)
  ∧ flatten_target_environments "conda"
      (layer_to_py <$> (retag (λ _, "virtualenv") <$> ls))
    = Ok (IsolatedConda (env_dict (concat (conda_dependencies <$> ls)))).
Proof.
  assert (∀ t g,
    flatten_target_environments t (layer_to_py <$> (retag g <$> ls))
    = flatten_target_environments t (layer_to_py <$> ls)) as Hretag.
  { intros t' g.
    apply (flatten_layers_ext (λ l l', configuration l = configuration l')).
    - unfold layer_requirements. by intros l l' ->.
    - unfold layer_packages. by intros _ l l' ->.
    - by apply Forall2_fmap_self. }
  split; [apply Hretag|]. split; [|split].
  - eexists. apply flatten_virtualenv_layers.
  - apply (flatten_layers_ext
             (λ l l', layer_requirements l = layer_requirements l')); [done|done|].
    apply Forall2_fmap_self. by intros [k [c|]].
  - rewrite Hretag. apply flatten_conda_layers.
Qed.

(** C9: a key holding the empty list contributes what an absent key does.
    Two stacks whose layers declare the same requirement and package
    strings, whether or not empty lists are spelled out, flatten to the
    same result under every handle type, and no conda dependency list
    contains a [{"pip": []}] entry. *)
Theorem empty_list_same_as_absent (t : string) (ls ls' : list layer) :
  Forall2 same_declarations ls ls' →
  flatten_target_environments t (layer_to_py <$> ls)
  = flatten_target_environments t (layer_to_py <$> ls')
  ∧ ∃ deps, flatten_target_environments "conda" (layer_to_py <$> ls)
            = Ok (IsolatedConda (env_dict deps))
            ∧ PyDict [("pip", PyList [])] ∉ deps.
Proof.
  intros Hsame. split.
  - apply (flatten_layers_ext same_declarations); [by intros l l' []| |done].
    by intros _ l l' [].
  - eexists. split; [apply flatten_conda_layers|].
    clear. induction ls as [|l ls IH]; cbn; [apply not_elem_of_nil|].
    intros [H|H]%elem_of_app; [|done].
    unfold conda_dependencies in H. apply elem_of_app in H as [H|H].
    + apply list_elem_of_fmap in H as (p & Hp & _). discriminate.
    + unfold pip_entry in H. destruct (layer_requirements l); [by apply elem_of_nil in H|].
      apply list_elem_of_singleton in H. discriminate.
Qed.

Lemma empty_list_same_as_absent_witness :
  flatten_target_environments "conda"
    (layer_to_py <$>
       [Layer "conda" (Some (LayerConfiguration (Some []) (Some ["numpy"])));
        Layer "conda" (Some (LayerConfiguration (Some ["pandas"]) (Some [])))])
  = flatten_target_environments "conda"
      (layer_to_py <$>
         [Layer "conda" (Some (LayerConfiguration None (Some ["numpy"])));
          Layer "conda" (Some (LayerConfiguration (Some ["pandas"]) None))]).
Proof.
  apply (empty_list_same_as_absent "conda"
    [Layer "conda" (Some (LayerConfiguration (Some []) (Some ["numpy"])));
     Layer "conda" (Some (LayerConfiguration (Some ["pandas"]) (Some [])))]
    [Layer "conda" (Some (LayerConfiguration None (Some ["numpy"])));
     Layer "conda" (Some (LayerConfiguration (Some ["pandas"]) None))]).
  repeat constructor.
Defined.

(** ** Dispatch *)

Section dispatch.

Context {Manifest MacroManifest AdapterResponse ConnectionKey : Type}.
Context (read_entry : path → result ())
        (get_fal_scripts_path : runtime_config → path)
        (get_default_pip_dependencies : string → bool → list string)
        (environment_create : environment → result ConnectionKey)
        (stage_create : list string → result path)
        (connection_run :
           environment → ConnectionKey
           → @execution_request Manifest MacroManifest → result AdapterResponse)
        (ipc_run :
           environment → ConnectionKey → list path
           → @execution_request Manifest MacroManifest → result AdapterResponse)
        (isolated_function :
           string → string → isolated_env → string
           → @execution_request Manifest MacroManifest → result AdapterResponse).

#[local] Abbreviation dispatch :=
  (run_in_environment_with_adapter read_entry get_fal_scripts_path
     get_default_pip_dependencies environment_create stage_create
     connection_run ipc_run isolated_function).

(** C6: on the remote-service branch, BigQuery credentials with method
    ["service-account"] make the dispatcher raise the configuration error
    at once: the handle is as it was (no layer appended) and no call has
    been made ([environment.create()] in particular). *)
Theorem service_account_rejected_first (w : world) (fs : filesystem)
    (code : string) (config : runtime_config) (manifest : Manifest)
    (macro_manifest : MacroManifest) (adapter_type : string) :
  env_class (handle w) = IsolateServer
  ∨ env_class (handle w) = KoldstartDummyServer →
  credentials_class (config_credentials config) = "BigQueryCredentials" →
  method (config_credentials config) = "service-account" →
  dispatch fs code config manifest macro_manifest adapter_type w
  = (w, Raise (RuntimeError
                 "BigQuery credential method `service-account` is not supported. Please use `service-account-json` instead")).
Proof.
  intros Hclass Hcred Hmethod. unfold run_in_environment_with_adapter.
  cbv [mbind action_bind get_state].
  rewrite bool_decide_eq_true_2 by (destruct Hclass as [-> | ->]; set_solver).
  by rewrite !bool_decide_eq_true_2 by done.
Qed.

(** C10: a handle of any other class takes the local branch whatever the
    credentials are; once the environment and the stage are created, the
    outcome is that of running, over the inter-process channel, the
    request without archive, which is the only request submitted. *)
Theorem local_branch_skips_credential_check (w : world) (fs : filesystem)
    (code : string) (config : runtime_config) (manifest : Manifest)
    (macro_manifest : MacroManifest) (adapter_type class_name : string)
    (key : ConnectionKey) (venv : path) :
  env_class (handle w) = LocalEnvironment class_name →
  environment_create (handle w) = Ok key →
  stage_create (get_default_pip_dependencies adapter_type false) = Ok venv →
  let request :=
    ExecutionRequest code config manifest macro_manifest None in
  let extra_paths := [get_fal_scripts_path config; venv] in
  dispatch fs code config manifest macro_manifest adapter_type w
  = ({| handle := handle w;
        calls := calls w
                 ++ [EnvironmentCreate (handle w);
                     StageCreate (get_default_pip_dependencies adapter_type false);
                     PythonIPC (handle w) key extra_paths;
                     ConnectionRun request;
                     CloseConnection] |},
     ipc_run (handle w) key extra_paths request).
Proof.
  intros Hclass Hkey Hvenv request extra_paths.
  unfold run_in_environment_with_adapter.
  cbv [mbind action_bind get_state].
  rewrite bool_decide_eq_false_2.
  2:{ rewrite Hclass. intros [?|[?|?%elem_of_nil]%elem_of_cons]%elem_of_cons; done. }
  unfold record_call, with_connection. rewrite Hkey, Hvenv. cbn.
  by rewrite <- !app_assoc.
Qed.

End dispatch.

Lemma service_account_rejected_first_witness :
  let w := World (Manifest := ()) (MacroManifest := ()) (ConnectionKey := nat)
             (Environment KoldstartDummyServer "https://host" "key" "virtualenv"
                [] "S") [] in
  run_in_environment_with_adapter (AdapterResponse := string)
    (λ _, Ok ()) (λ _, ["project"; "fal_scripts"]) (λ _ _, ["dbt-bigquery"])
    (λ _, Ok 0) (λ _, Ok ["venv"]) (λ _ _ _, Ok "ran") (λ _ _ _ _, Ok "ran")
    (λ _ _ _ _ _, Ok "ran")
    ∅ "def main(): pass"
    (RuntimeConfig (Credentials "BigQueryCredentials" "service-account") "demo")
    () () "bigquery" w
  = (w, Raise (RuntimeError
                 "BigQuery credential method `service-account` is not supported. Please use `service-account-json` instead")).
Proof.
  intros w.
  apply (service_account_rejected_first _ _ _ _ _ _ _ _ w);
    [by right | reflexivity | reflexivity].
Defined.

Lemma local_branch_skips_credential_check_witness :
  let w := World (Manifest := ()) (MacroManifest := ()) (ConnectionKey := nat)
             (Environment (LocalEnvironment "VirtualPythonEnvironment") "" ""
                "" [] "") [] in
  (run_in_environment_with_adapter (AdapterResponse := string)
     (λ _, Ok ()) (λ _, ["project"; "fal_scripts"]) (λ _ _, ["dbt-bigquery"])
     (λ _, Ok 7) (λ _, Ok ["venv"]) (λ _ _ _, Ok "remote") (λ _ _ _ _, Ok "local")
     (λ _ _ _ _ _, Ok "koldstart")
     ∅ "def main(): pass"
     (RuntimeConfig (Credentials "BigQueryCredentials" "service-account") "demo")
     () () "bigquery" w).2
  = Ok "local".
Proof.
  intros w.
  rewrite (local_branch_skips_credential_check _ _ _ _ _ _ _ _ w ∅ _ _ () () _
             "VirtualPythonEnvironment" 7 ["venv"]); reflexivity.
Defined.

(** ** Packaging and unpacking *)

Section packaging.

Implicit Types (fs : filesystem) (p q r rel dest root : path) (n : node)
  (m : zip_member) (zip : archive).

Lemma parent_snoc p (x : string) : parent (p ++ [x]) = p.
Proof.
  unfold parent. rewrite length_app. cbn.
  replace (length p + 1 - 1) with (length p) by lia.
  by rewrite take_app_length.
Qed.


Lemma path_exists_false fs p : path_exists fs p = false ↔ fs !! p = None.
Proof.
  unfold path_exists. rewrite bool_decide_eq_false.
  by rewrite <- eq_None_not_Some.
Qed.

Lemma well_formed_parent fs p (x : string) n :
  well_formed fs → fs !! (p ++ [x]) = Some n → fs !! p = Some Dir.
Proof.
  intros [_ Hwf] Hp. destruct (Hwf _ _ Hp) as [Hnil|Hpar].
  - by destruct p.
  - by rewrite parent_snoc in Hpar.
Qed.

(** In a well-formed filesystem an existing path lies below directories
    only, and nothing exists below a path that does not. *)
Lemma well_formed_ancestor fs p r n :
  well_formed fs → r ≠ [] → fs !! (p ++ r) = Some n → fs !! p = Some Dir.
Proof.
  intros Hwf. revert n. induction r as [|x r IH] using rev_ind; [done|].
  intros n _ Hn. rewrite app_assoc in Hn.
  apply well_formed_parent in Hn; [|done].
  destruct r as [|y r]; [by rewrite app_nil_r in Hn|].
  by apply (IH Dir).
Qed.

Lemma well_formed_below_none fs p r :
  well_formed fs → fs !! p = None → fs !! (p ++ r) = None.
Proof.
  intros Hwf Hp. destruct r as [|x r]; [by rewrite app_nil_r|].
  destruct (fs !! (p ++ x :: r)) as [n|] eqn:E; [|done].
  apply well_formed_ancestor in E; [congruence|done|done].
Qed.


































End packaging.



(* ================================================================== *)
(** * Further properties of the flattening loops *)

(** Each loop body only appends to its accumulator. *)
Lemma virtualenv_step_appends (acc : list pyval) (env : pyval) :
  virtualenv_step acc env
  = (extra ← virtualenv_step [] env; Ok (acc ++ extra)).
Proof.
  unfold virtualenv_step. cbv [mbind result_bind].
  destruct (py_get env "configuration" (PyDict [])) as [cfg|e]; [|done].
  destruct (py_get cfg "requirements" PyNone) as [r|e]; [|done].
  destruct (truthy r); [|by rewrite app_nil_r].
  destruct (py_getitem env "configuration") as [c|e]; [|done].
  destruct (py_getitem c "requirements") as [v|e]; [|done].
  by destruct (py_iter v).
Qed.

Lemma conda_step_appends (acc : list pyval) (env : pyval) :
  conda_step acc env = (extra ← conda_step [] env; Ok (acc ++ extra)).
Proof.
  unfold conda_step. cbv [mbind result_bind].
  destruct (py_get env "configuration" (PyDict [])) as [cfg|e]; [|done].
  destruct (py_get cfg "packages" PyNone) as [p|e]; [|done].
  destruct (py_getitem env "configuration") as [c|e];
    destruct (py_get cfg "requirements" PyNone) as [r|e'];
    destruct (truthy p); try done;
    try (destruct (py_getitem c "packages") as [v|e'']; [|done];
         destruct (py_iter v) as [extra|e'']; [|done]);
    try (destruct (truthy r); [|by rewrite ?app_nil_r]);
    try (destruct (py_getitem c "requirements"); [|done]);
    cbn; by rewrite <- ?app_assoc, ?app_nil_r.
Qed.

Lemma for_each_app {A S : Type} (body : S → A → result S) (xs ys : list A)
    (acc : S) :
  for_each body (xs ++ ys) acc = (acc' ← for_each body xs acc; for_each body ys acc').
Proof.
  revert acc. induction xs as [|x xs IH]; intros acc; cbn; [done|].
  destruct (body acc x) as [acc'|e]; cbn; [apply IH|done].
Qed.

Lemma for_each_appends (step : list pyval → pyval → result (list pyval))
    (envs : list pyval) :
  (∀ acc env, step acc env = (extra ← step [] env; Ok (acc ++ extra))) →
  ∀ acc, for_each step envs acc
         = (extra ← for_each step envs []; Ok (acc ++ extra)).
Proof.
  intros Hstep. induction envs as [|env envs IH]; intros acc; cbn.
  - by rewrite app_nil_r.
  - rewrite (Hstep acc env). destruct (step [] env) as [d|e]; cbn; [|done].
    rewrite (IH (acc ++ d)), (IH d).
    destruct (for_each step envs []) as [d'|e]; cbn; [|done].
    by rewrite app_assoc.
Qed.

Lemma flatten_cases (t : string) (envs : list pyval) :
  (t = "virtualenv"
   ∧ flatten_target_environments t envs
     = (rs ← for_each virtualenv_step envs []; Ok (IsolatedVirtualenv rs)))
  ∨ (t = "conda"
     ∧ flatten_target_environments t envs
       = (ds ← for_each conda_step envs []; Ok (IsolatedConda (env_dict ds))))
  ∨ (supported_kind t = false
     ∧ flatten_target_environments t envs
       = Raise (Exception ("Environment type not supported: " +:+ t))).
Proof.
  unfold flatten_target_environments.
  destruct (decide (t = "virtualenv")) as [->|Hv]; [by left|].
  destruct (decide (t = "conda")) as [->|Hc]; [by right; left|].
  right; right. split; [|done]. unfold supported_kind.
  apply orb_false_iff. split; by apply String.eqb_neq.
Qed.

(** X1: flattening is additive over the stack.  When two stacks flatten
    without error under a handle type, so does their concatenation, and it
    yields the items of the first followed by those of the second: a later
    layer never removes or reorders what an earlier one contributed. *)
Theorem flatten_concatenated_stacks (t : string) (s1 s2 : list pyval)
    (e1 e2 : isolated_env) :
  flatten_target_environments t s1 = Ok e1 →
  flatten_target_environments t s2 = Ok e2 →
  ∃ e, flatten_target_environments t (s1 ++ s2) = Ok e
       ∧ flattened_items e = flattened_items e1 ++ flattened_items e2.
Proof.
  intros H1 H2.
  destruct (flatten_cases t (s1 ++ s2)) as [[-> H]|[[-> H]|[Hs H]]].
  - rewrite H, for_each_app. clear H.
    destruct (flatten_cases "virtualenv" s1) as [[_ E1]|[[? _]|[? _]]]; [|done..].
    destruct (flatten_cases "virtualenv" s2) as [[_ E2]|[[? _]|[? _]]]; [|done..].
    rewrite E1 in H1. rewrite E2 in H2.
    destruct (for_each virtualenv_step s1 []) as [r1|]; [|done].
    cbn in H1 |- *.
    rewrite (for_each_appends virtualenv_step s2 virtualenv_step_appends r1).
    destruct (for_each virtualenv_step s2 []) as [r2|]; [|done].
    cbn in H2 |- *. eexists. split; [done|].
    injection H1 as <-. by injection H2 as <-.
  - rewrite H, for_each_app. clear H.
    destruct (flatten_cases "conda" s1) as [[? _]|[[_ E1]|[? _]]]; [done| |done].
    destruct (flatten_cases "conda" s2) as [[? _]|[[_ E2]|[? _]]]; [done| |done].
    rewrite E1 in H1. rewrite E2 in H2.
    destruct (for_each conda_step s1 []) as [r1|]; [|done].
    cbn in H1 |- *.
    rewrite (for_each_appends conda_step s2 conda_step_appends r1).
    destruct (for_each conda_step s2 []) as [r2|]; [|done].
    cbn in H2 |- *. eexists. split; [done|].
    injection H1 as <-. by injection H2 as <-.
  - destruct (flatten_cases t s1) as [[-> _]|[[-> _]|[_ E1]]].
    + discriminate Hs.
    + discriminate Hs.
    + congruence.
Qed.

Lemma flatten_concatenated_stacks_witness :
  ∃ e, flatten_target_environments "conda"
         ([PyDict [("configuration", PyDict [("packages", PyList [PyStr "numpy"])])]]
          ++ [PyDict [("configuration",
                       PyDict [("requirements", PyList [PyStr "pandas"])])]])
       = Ok e
       ∧ flattened_items e
         = [PyStr "numpy"] ++ [PyDict [("pip", PyList [PyStr "pandas"])]].
Proof.
  apply (flatten_concatenated_stacks "conda" _ _
           (IsolatedConda (env_dict [PyStr "numpy"]))
           (IsolatedConda (env_dict [PyDict [("pip", PyList [PyStr "pandas"])]])));
    reflexivity.
Defined.

(** X2: the first failing part of a stack decides the outcome.  An error
    raised while flattening a stack is raised unchanged whatever layers
    follow, and a stack that flattens cleanly does not mask the error of
    the layers appended to it. *)
Theorem flatten_first_error (t : string) (s1 s2 : list pyval) (e : pyexn) :
  (flatten_target_environments t s1 = Raise e →
   flatten_target_environments t (s1 ++ s2) = Raise e)
  ∧ (∀ e1, flatten_target_environments t s1 = Ok e1 →
           flatten_target_environments t s2 = Raise e →
           flatten_target_environments t (s1 ++ s2) = Raise e).
Proof.
  destruct (flatten_cases t (s1 ++ s2)) as [[-> H]|[[-> H]|[Hs H]]].
  - destruct (flatten_cases "virtualenv" s1) as [[_ E1]|[[? _]|[? _]]]; [|done..].
    destruct (flatten_cases "virtualenv" s2) as [[_ E2]|[[? _]|[? _]]]; [|done..].
    rewrite H, E1, E2, for_each_app.
    destruct (for_each virtualenv_step s1 []) as [r1|e1]; cbn.
    + rewrite (for_each_appends virtualenv_step s2 virtualenv_step_appends r1).
      split; [done|]. intros _ _.
      by destruct (for_each virtualenv_step s2 []).
    + split; [done|]. by intros ?.
  - destruct (flatten_cases "conda" s1) as [[? _]|[[_ E1]|[? _]]]; [done| |done].
    destruct (flatten_cases "conda" s2) as [[? _]|[[_ E2]|[? _]]]; [done| |done].
    rewrite H, E1, E2, for_each_app.
    destruct (for_each conda_step s1 []) as [r1|e1]; cbn.
    + rewrite (for_each_appends conda_step s2 conda_step_appends r1).
      split; [done|]. intros _ _.
      by destruct (for_each conda_step s2 []).
    + split; [done|]. by intros ?.
  - destruct (flatten_cases t s1) as [[-> _]|[[-> _]|[_ E1]]];
      [discriminate Hs..|].
    rewrite H, E1. split; [done|]. by intros ?.
Qed.

Lemma flatten_first_error_witness :
  flatten_target_environments "virtualenv"
    ([PyDict [("configuration", PyNone)]]
     ++ [PyDict [("configuration", PyDict [("requirements", PyInt 3)])]])
  = Raise AttributeError.
Proof.
  apply (flatten_first_error "virtualenv"
           [PyDict [("configuration", PyNone)]]
           [PyDict [("configuration", PyDict [("requirements", PyInt 3)])]]
           AttributeError).
  reflexivity.
Defined.

Lemma virtualenv_step_malformed (acc : list pyval) (env : pyval) :
  malformed_layer env = true → virtualenv_step acc env = Raise AttributeError.
Proof.
  unfold malformed_layer, virtualenv_step, py_get.
  destruct env as [| | | | |d]; try done.
  destruct (assoc "configuration" d) as [[]|]; done.
Qed.

Lemma conda_step_malformed (acc : list pyval) (env : pyval) :
  malformed_layer env = true → conda_step acc env = Raise AttributeError.
Proof.
  unfold malformed_layer, conda_step, py_get.
  destruct env as [| | | | |d]; try done.
  destruct (assoc "configuration" d) as [[]|]; done.
Qed.

(** X3: a layer that is not a dictionary, or whose ["configuration"] is
    present but not a dictionary (for instance [None]), makes flattening
    raise [AttributeError] under both supported handle types, whatever
    well-formed layers come before it and whatever follows: the [{}]
    default of [env.get("configuration", {})] only covers an absent key. *)
Theorem malformed_layer_raises (t : string) (ls : list layer) (env : pyval)
    (rest : list pyval) :
  supported_kind t = true →
  malformed_layer env = true →
  flatten_target_environments t ((layer_to_py <$> ls) ++ env :: rest)
  = Raise AttributeError.
Proof.
  intros [-> | ->]%supported_kind_cases Hbad.
  - destruct (flatten_cases "virtualenv" ((layer_to_py <$> ls) ++ env :: rest))
      as [[_ ->]|[[? _]|[? _]]]; [|done..].
    rewrite for_each_app.
    rewrite (for_each_layers virtualenv_step (λ l, PyStr <$> layer_requirements l))
      by apply virtualenv_step_layer.
    cbn. by rewrite virtualenv_step_malformed.
  - destruct (flatten_cases "conda" ((layer_to_py <$> ls) ++ env :: rest))
      as [[? _]|[[_ ->]|[? _]]]; [done| |done].
    rewrite for_each_app.
    rewrite (for_each_layers conda_step conda_dependencies)
      by apply conda_step_layer.
    cbn. by rewrite conda_step_malformed.
Qed.

Lemma malformed_layer_raises_witness :
  flatten_target_environments "conda"
    ((layer_to_py <$> [Layer "conda" (Some (LayerConfiguration None (Some ["numpy"])))])
     ++ PyDict [("kind", PyStr "conda"); ("configuration", PyNone)] :: [])
  = Raise AttributeError.
Proof.
  apply (malformed_layer_raises "conda"); reflexivity.
Defined.

Lemma split_characters_count (s : string) :
  length (split_characters s).2 = character_count s.
Proof.
  induction s as [|c s IH]; cbn; [done|].
  destruct (split_characters s) as [continuation characters]. cbn in IH.
  destruct (is_continuation c); cbn; by rewrite IH.
Qed.

Lemma split_characters_begin (s : string) :
  begins_character s = true → (split_characters s).1 = EmptyString.
Proof.
  destruct s as [|c s]; cbn; [done|].
  destruct (split_characters s), (is_continuation c); done.
Qed.

Lemma length_chars (s : string) :
  begins_character s = true → length (chars s) = character_count s.
Proof.
  intros Hs. unfold chars.
  pose proof (split_characters_count s) as Hcount.
  pose proof (split_characters_begin s Hs) as Hbegin.
  destruct (split_characters s) as [continuation characters]. cbn in *.
  subst continuation. by rewrite length_fmap.
Qed.

Lemma virtualenv_step_string (acc : list pyval) (k s : string) :
  s ≠ "" →
  virtualenv_step acc
    (PyDict [("kind", PyStr k);
             ("configuration", PyDict [("requirements", PyStr s)])])
  = Ok (acc ++ chars s).
Proof. intros Hs. by destruct s. Qed.

(** X4: a requirements value written as a single non-empty string rather
    than a list is accepted silently.  Under a virtualenv handle [+=]
    spreads it into one requirement per character (code point) of the
    string; under a conda handle the string itself becomes the value of
    the [pip] entry. *)
Theorem string_requirements_not_rejected (ls : list layer) (k s : string) :
  s ≠ "" → begins_character s = true →
  let env :=
    PyDict [("kind", PyStr k);
            ("configuration", PyDict [("requirements", PyStr s)])] in
  (∃ extra,
     flatten_target_environments "virtualenv" ((layer_to_py <$> ls) ++ [env])
     = Ok (IsolatedVirtualenv
             ((PyStr <$> concat (layer_requirements <$> ls)) ++ extra))
     ∧ extra = chars s ∧ length extra = character_count s)
  ∧ flatten_target_environments "conda" ((layer_to_py <$> ls) ++ [env])
    = Ok (IsolatedConda
            (env_dict (concat (conda_dependencies <$> ls)
                       ++ [PyDict [("pip", PyStr s)]]))).
Proof.
  intros Hs Hbegin env. split.
  - exists (chars s). split; [|split; [done|by apply length_chars]].
    destruct (flatten_cases "virtualenv" ((layer_to_py <$> ls) ++ [env]))
      as [[_ ->]|[[? _]|[? _]]]; [|done..].
    rewrite for_each_app.
    rewrite (for_each_layers virtualenv_step (λ l, PyStr <$> layer_requirements l))
      by apply virtualenv_step_layer.
    cbn [mbind result_bind for_each]. unfold env.
    rewrite virtualenv_step_string by done. cbn -[chars].
    do 3 f_equal. induction ls as [|l ls IH]; cbn; [done|].
    by rewrite fmap_app, IH.
  - destruct s as [|c s]; [done|].
    destruct (flatten_cases "conda" ((layer_to_py <$> ls) ++ [env]))
      as [[? _]|[[_ ->]|[? _]]]; [done| |done].
    rewrite for_each_app.
    rewrite (for_each_layers conda_step conda_dependencies)
      by apply conda_step_layer.
    reflexivity.
Qed.

Lemma string_requirements_not_rejected_witness :
  ∃ extra,
    flatten_target_environments "virtualenv"
      ((layer_to_py <$> [])
       ++ [PyDict [("kind", PyStr "virtualenv");
                   ("configuration", PyDict [("requirements", PyStr "né")])]])
    = Ok (IsolatedVirtualenv ((PyStr <$> concat (layer_requirements <$> [])) ++ extra))
    ∧ extra = [PyStr "n"; PyStr "é"] ∧ length extra = 2.
Proof.
  apply (string_requirements_not_rejected [] "virtualenv" "né");
    [discriminate|reflexivity].
Defined.

(* ================================================================== *)
(** * Further properties of the dispatcher *)

Lemma compress_local_packages_none (read_entry : path → result ())
    (fs : filesystem) (fal_scripts_path : path) (packages : option archive) :
  compress_local_packages read_entry fs fal_scripts_path = Ok packages →
  packages = None ↔ path_exists fs fal_scripts_path = false.
Proof.
  unfold compress_local_packages.
  destruct (path_exists fs fal_scripts_path); [|by intros [= <-]].
  destruct (for_each _ _ _); cbn; [|done]. by intros [= <-].
Qed.

Section remote_dispatch.

Context {Manifest MacroManifest AdapterResponse ConnectionKey : Type}.
Context (read_entry : path → result ())
        (get_fal_scripts_path : runtime_config → path)
        (get_default_pip_dependencies : string → bool → list string)
        (environment_create : environment → result ConnectionKey)
        (stage_create : list string → result path)
        (connection_run :
           environment → ConnectionKey
           → @execution_request Manifest MacroManifest → result AdapterResponse)
        (ipc_run :
           environment → ConnectionKey → list path
           → @execution_request Manifest MacroManifest → result AdapterResponse)
        (isolated_function :
           string → string → isolated_env → string
           → @execution_request Manifest MacroManifest → result AdapterResponse).

#[local] Abbreviation dispatch :=
  (run_in_environment_with_adapter read_entry get_fal_scripts_path
     get_default_pip_dependencies environment_create stage_create
     connection_run ipc_run isolated_function).

#[local] Abbreviation remote_layer adapter_type :=
  (default_dependencies_layer (get_default_pip_dependencies adapter_type true)).

Implicit Types (w : @world Manifest MacroManifest ConnectionKey)
  (fs : filesystem) (config : runtime_config).

(** The remote branch once the credentials have passed the test. *)
Lemma dispatch_remote w fs code config (manifest : Manifest)
    (macro_manifest : MacroManifest) adapter_type :
  is_remote (handle w) → unsupported_credentials config = false →
  let env' := with_target_environment (handle w) (remote_layer adapter_type) in
  dispatch fs code config manifest macro_manifest adapter_type w
  = match environment_create env' with
    | Raise e =>
        ({| handle := env'; calls := calls w ++ [EnvironmentCreate env'] |}, Raise e)
    | Ok key =>
        match compress_local_packages read_entry fs (get_fal_scripts_path config) with
        | Raise e =>
            ({| handle := env'; calls := calls w ++ [EnvironmentCreate env'] |},
             Raise e)
        | Ok packages =>
            (if bool_decide (env_class env' = KoldstartDummyServer) then
               run_in_koldstart isolated_function code config manifest
                 macro_manifest packages
             else
               with_connection (OpenConnection env' key) (connection_run env' key)
                 (ExecutionRequest code config manifest macro_manifest packages))
              {| handle := env'; calls := calls w ++ [EnvironmentCreate env'] |}
        end
    end.
Proof.
  intros Hremote Hcreds env'. unfold run_in_environment_with_adapter.
  cbv [mbind action_bind get_state].
  rewrite bool_decide_eq_true_2.
  2:{ destruct Hremote as [-> | ->];
        [apply list_elem_of_here|apply list_elem_of_further, list_elem_of_here]. }
  unfold unsupported_credentials in Hcreds. rewrite Hcreds.
  unfold append_target_environment, record_call, lift. cbn [handle calls].
  fold (remote_layer adapter_type). fold (with_target_environment (handle w) (remote_layer adapter_type)).
  fold env'. destruct (environment_create env') as [key|e]; [|done].
  by destruct (compress_local_packages read_entry fs (get_fal_scripts_path config)).
Qed.

(** X5: on an [IsolateServer] handle with accepted credentials, the layer
    of default remote dependencies is appended last to the handle's stack
    before [create()] is called on it; when packing the scripts then
    succeeds, the archive is absent exactly when the scripts directory is,
    and one request is run over the opened connection, whose outcome
    (result or exception) is returned after the connection is closed. *)
Theorem isolate_server_dispatch w fs code config (manifest : Manifest)
    (macro_manifest : MacroManifest) adapter_type (key : ConnectionKey)
    (packages : option archive) :
  env_class (handle w) = IsolateServer →
  unsupported_credentials config = false →
  let env' := with_target_environment (handle w) (remote_layer adapter_type) in
  environment_create env' = Ok key →
  compress_local_packages read_entry fs (get_fal_scripts_path config)
  = Ok packages →
  (packages = None ↔ path_exists fs (get_fal_scripts_path config) = false)
  ∧ let request :=
      ExecutionRequest code config manifest macro_manifest packages in
    dispatch fs code config manifest macro_manifest adapter_type w
    = ({| handle := env';
          calls := calls w ++ [EnvironmentCreate env'; OpenConnection env' key;
                               ConnectionRun request; CloseConnection] |},
       connection_run env' key request).
Proof.
  intros Hclass Hcreds env' Hkey Hpack.
  split; [by apply (compress_local_packages_none read_entry)|]. intros request.
  rewrite dispatch_remote by (by left || done). fold env'.
  rewrite Hkey, Hpack. rewrite bool_decide_eq_false_2.
  - unfold with_connection. cbn [handle calls]. by rewrite <- app_assoc.
  - cbn. by rewrite Hclass.
Qed.

(** X6: when [environment.create()] raises on the remote branch, the
    exception is returned as it is and nothing else is called, but the
    handle keeps the layer that was appended before the call. *)
Theorem remote_create_failure w fs code config (manifest : Manifest)
    (macro_manifest : MacroManifest) adapter_type (e : pyexn) :
  is_remote (handle w) →
  unsupported_credentials config = false →
  let env' := with_target_environment (handle w) (remote_layer adapter_type) in
  environment_create env' = Raise e →
  dispatch fs code config manifest macro_manifest adapter_type w
  = ({| handle := env'; calls := calls w ++ [EnvironmentCreate env'] |}, Raise e).
Proof.
  intros Hremote Hcreds env' Hfail.
  rewrite dispatch_remote by done. fold env'. by rewrite Hfail.
Qed.

(** X18: when packing the scripts raises on the remote branch (an entry
    that [zip_file.write] cannot archive), the exception is returned as it
    is after [create()] has been called on the handle with its appended
    layer: no connection is opened and no isolated function is built. *)
Theorem remote_packing_failure w fs code config (manifest : Manifest)
    (macro_manifest : MacroManifest) adapter_type (key : ConnectionKey)
    (e : pyexn) :
  is_remote (handle w) →
  unsupported_credentials config = false →
  let env' := with_target_environment (handle w) (remote_layer adapter_type) in
  environment_create env' = Ok key →
  compress_local_packages read_entry fs (get_fal_scripts_path config) = Raise e →
  dispatch fs code config manifest macro_manifest adapter_type w
  = ({| handle := env'; calls := calls w ++ [EnvironmentCreate env'] |}, Raise e).
Proof.
  intros Hremote Hcreds env' Hkey Hfail.
  rewrite dispatch_remote by done. fold env'. by rewrite Hkey, Hfail.
Qed.

Lemma dispatch_remote_handle w fs code config (manifest : Manifest)
    (macro_manifest : MacroManifest) adapter_type :
  is_remote (handle w) → unsupported_credentials config = false →
  handle (dispatch fs code config manifest macro_manifest adapter_type w).1
  = with_target_environment (handle w) (remote_layer adapter_type).
Proof.
  intros Hremote Hcreds. rewrite dispatch_remote by done.
  destruct (environment_create _) as [key|e]; [|done].
  destruct (compress_local_packages _ _ _) as [packages|e]; [|done].
  case_bool_decide; [|done].
  unfold run_in_koldstart. cbv [mbind action_bind get_state lift record_call].
  cbn [handle calls].
  by destruct (flatten_target_environments _ _).
Qed.

(** X7: the handle is mutated in place, so dispatching twice through the
    same remote handle leaves two default-dependency layers on its stack,
    one per call, whatever the isolation libraries answered. *)
Theorem repeated_dispatch_accumulates_layers w fs1 fs2 code1 code2
    config1 config2 (manifest1 manifest2 : Manifest)
    (macro_manifest1 macro_manifest2 : MacroManifest) adapter_type1 adapter_type2 :
  is_remote (handle w) →
  unsupported_credentials config1 = false →
  unsupported_credentials config2 = false →
  let w1 := (dispatch fs1 code1 config1 manifest1 macro_manifest1 adapter_type1 w).1 in
  let w2 := (dispatch fs2 code2 config2 manifest2 macro_manifest2 adapter_type2 w1).1 in
  target_environments (handle w2)
  = target_environments (handle w)
    ++ [remote_layer adapter_type1; remote_layer adapter_type2].
Proof.
  intros Hremote Hcreds1 Hcreds2 w1 w2.
  assert (handle w1 = with_target_environment (handle w) (remote_layer adapter_type1))
    as Hw1 by (by apply dispatch_remote_handle).
  unfold w2. rewrite dispatch_remote_handle; [|by rewrite Hw1|done].
  rewrite Hw1. cbn. by rewrite <- app_assoc.
Qed.

Lemma default_layer_to_py (deps : list string) :
  default_dependencies_layer deps
  = layer_to_py (Layer "virtualenv" (Some (LayerConfiguration (Some deps) None))).
Proof. reflexivity. Qed.

Lemma concat_fmap_snoc {A B : Type} (f : A → list B) (l : list A) (a : A) :
  concat (f <$> (l ++ [a])) = concat (f <$> l) ++ f a.
Proof. by rewrite fmap_app, concat_app; cbn; rewrite app_nil_r. Qed.

(** X8: on a [KoldstartDummyServer] handle of type ["virtualenv"], the
    isolated function is built with the stack's requirements followed by
    the default remote dependencies, once [create()] and the packing of
    the scripts have succeeded, and it is the only call made after
    [create()]: no connection is opened. *)
Theorem koldstart_virtualenv_dispatch w fs code config (manifest : Manifest)
    (macro_manifest : MacroManifest) adapter_type (key : ConnectionKey)
    (ls : list layer) (packages : option archive) :
  env_class (handle w) = KoldstartDummyServer →
  target_env_type (handle w) = "virtualenv" →
  target_environments (handle w) = layer_to_py <$> ls →
  unsupported_credentials config = false →
  let env' := with_target_environment (handle w) (remote_layer adapter_type) in
  environment_create env' = Ok key →
  compress_local_packages read_entry fs (get_fal_scripts_path config)
  = Ok packages →
      let request :=
        ExecutionRequest code config manifest macro_manifest packages in
      let spec :=
        IsolatedVirtualenv
          (PyStr <$> (concat (layer_requirements <$> ls)
                      ++ get_default_pip_dependencies adapter_type true)) in
      dispatch fs code config manifest macro_manifest adapter_type w
      = ({| handle := env';
            calls := calls w
                     ++ [EnvironmentCreate env';
                         IsolatedFunction (host env') (creds env') spec
                           (machine_type env') request] |},
         isolated_function (host env') (creds env') spec (machine_type env')
           request).
Proof.
  intros Hclass Htype Hstack Hcreds env' Hkey Hpack request spec.
  rewrite dispatch_remote by (by right || done). fold env'.
  rewrite Hkey, Hpack. rewrite bool_decide_eq_true_2 by done.
  unfold run_in_koldstart. cbv [mbind action_bind get_state lift record_call].
  cbn [handle calls].
  assert (flatten_target_environments (target_env_type env')
            (target_environments env') = Ok spec) as ->.
  { cbn. rewrite Htype, Hstack, default_layer_to_py.
    change [layer_to_py ?l] with (layer_to_py <$> [l]). rewrite <- fmap_app.
    rewrite flatten_virtualenv_layers. unfold spec. do 3 f_equal.
    by rewrite concat_fmap_snoc. }
  by rewrite <- app_assoc.
Qed.

(** X9: on a [KoldstartDummyServer] handle of type ["conda"], the
    dependency list passed to the isolated function is that of the stack
    followed by the default remote dependencies as one [pip] entry (none
    when there are no default dependencies), once [create()] and the
    packing of the scripts have succeeded. *)
Theorem koldstart_conda_dispatch w fs code config (manifest : Manifest)
    (macro_manifest : MacroManifest) adapter_type (key : ConnectionKey)
    (ls : list layer) (packages : option archive) :
  env_class (handle w) = KoldstartDummyServer →
  target_env_type (handle w) = "conda" →
  target_environments (handle w) = layer_to_py <$> ls →
  unsupported_credentials config = false →
  let env' := with_target_environment (handle w) (remote_layer adapter_type) in
  environment_create env' = Ok key →
  compress_local_packages read_entry fs (get_fal_scripts_path config)
  = Ok packages →
      let request :=
        ExecutionRequest code config manifest macro_manifest packages in
      let deps := get_default_pip_dependencies adapter_type true in
      let spec :=
        IsolatedConda
          (env_dict (concat (conda_dependencies <$> ls)
                     ++ match deps with
                        | [] => []
                        | _ => [PyDict [("pip", str_list deps)]]
                        end)) in
      dispatch fs code config manifest macro_manifest adapter_type w
      = ({| handle := env';
            calls := calls w
                     ++ [EnvironmentCreate env';
                         IsolatedFunction (host env') (creds env') spec
                           (machine_type env') request] |},
         isolated_function (host env') (creds env') spec (machine_type env')
           request).
Proof.
  intros Hclass Htype Hstack Hcreds env' Hkey Hpack request deps spec.
  rewrite dispatch_remote by (by right || done). fold env'.
  rewrite Hkey, Hpack. rewrite bool_decide_eq_true_2 by done.
  unfold run_in_koldstart. cbv [mbind action_bind get_state lift record_call].
  cbn [handle calls].
  assert (flatten_target_environments (target_env_type env')
            (target_environments env') = Ok spec) as ->.
  { cbn. rewrite Htype, Hstack, default_layer_to_py.
    change [layer_to_py ?l] with (layer_to_py <$> [l]). rewrite <- fmap_app.
    rewrite flatten_conda_layers. unfold spec. do 3 f_equal.
    rewrite concat_fmap_snoc. f_equal. fold deps. by destruct deps. }
  by rewrite <- app_assoc.
Qed.

(** X10: on a [KoldstartDummyServer] handle whose type is neither
    ["virtualenv"] nor ["conda"], the type is only rejected after the
    layer has been appended, [create()] has been called and the scripts
    have been packed, all with success; the isolated function is never
    built nor invoked. *)
Theorem koldstart_unsupported_type_after_create w fs code config
    (manifest : Manifest) (macro_manifest : MacroManifest) adapter_type
    (key : ConnectionKey) (packages : option archive) :
  env_class (handle w) = KoldstartDummyServer →
  supported_kind (target_env_type (handle w)) = false →
  unsupported_credentials config = false →
  let env' := with_target_environment (handle w) (remote_layer adapter_type) in
  environment_create env' = Ok key →
  compress_local_packages read_entry fs (get_fal_scripts_path config)
  = Ok packages →
  dispatch fs code config manifest macro_manifest adapter_type w
  = ({| handle := env'; calls := calls w ++ [EnvironmentCreate env'] |},
     Raise (Exception ("Environment type not supported: "
                       +:+ target_env_type (handle w)))).
Proof.
  intros Hclass Htype Hcreds env' Hkey Hpack.
  rewrite dispatch_remote by (by right || done). fold env'.
  rewrite Hkey, Hpack. rewrite bool_decide_eq_true_2 by done.
  unfold run_in_koldstart. cbv [mbind action_bind get_state lift record_call].
  cbn [handle calls].
  destruct (flatten_cases (target_env_type env') (target_environments env'))
    as [[E _]|[[E _]|[_ ->]]]; [| |done].
  - cbn in E. rewrite E in Htype. discriminate Htype.
  - cbn in E. rewrite E in Htype. discriminate Htype.
Qed.

End remote_dispatch.

Lemma isolate_server_dispatch_witness :
  (example_dispatch (λ _, Ok 7) (example_world IsolateServer "virtualenv")).2
  = Ok "remote".
Proof.
  destruct (isolate_server_dispatch (λ _, Ok ())
              (λ _, ["project"; "fal_scripts"]) (λ _ _, ["dbt-core"])
              (λ _, Ok 7) (λ _, Ok ["venv"]) (λ _ _ _, Ok "remote")
              (λ _ _ _ _, Ok "local") (λ _ _ _ _ _, Ok "koldstart")
              (example_world IsolateServer "virtualenv") ∅ "def main(): pass"
              example_config () () "snowflake" 7 None)
    as [_ Hrun]; [reflexivity..|].
  unfold example_dispatch. by rewrite Hrun.
Defined.

Lemma remote_create_failure_witness :
  (example_dispatch (λ _, Raise (RuntimeError "no capacity"))
     (example_world KoldstartDummyServer "virtualenv")).2
  = Raise (RuntimeError "no capacity").
Proof.
  unfold example_dispatch.
  rewrite (remote_create_failure _ _ _ _ _ _ _ _ _ _ _ _ _ _ _
             (RuntimeError "no capacity")); [reflexivity|by right|reflexivity..].
Defined.

Lemma remote_packing_failure_witness :
  (run_in_environment_with_adapter (AdapterResponse := string)
     (strict_timestamps (λ _, 1970%Z)) (λ _, ["proj"; "scripts"])
     (λ _ _, ["dbt-core"]) (λ _, Ok 7) (λ _, Ok ["venv"])
     (λ _ _ _, Ok "remote") (λ _ _ _ _, Ok "local") (λ _ _ _ _ _, Ok "koldstart")
     example_source "def main(): pass" example_config () () "snowflake"
     (example_world IsolateServer "virtualenv")).2
  = Raise (ValueError "ZIP does not support timestamps before 1980").
Proof.
  rewrite (remote_packing_failure (strict_timestamps (λ _, 1970%Z))
             (λ _, ["proj"; "scripts"]) (λ _ _, ["dbt-core"]) (λ _, Ok 7)
             (λ _, Ok ["venv"]) (λ _ _ _, Ok "remote") (λ _ _ _ _, Ok "local")
             (λ _ _ _ _ _, Ok "koldstart")
             (example_world IsolateServer "virtualenv") example_source
             "def main(): pass" example_config () () "snowflake" 7
             (ValueError "ZIP does not support timestamps before 1980"));
    [reflexivity|by left|reflexivity|reflexivity|].
  vm_compute. reflexivity.
Defined.

Lemma repeated_dispatch_accumulates_layers_witness :
  let w := example_world IsolateServer "virtualenv" in
  length (target_environments
            (handle (example_dispatch (λ _, Ok 7)
                       (example_dispatch (λ _, Ok 7) w).1).1))
  = 3.
Proof.
  intros w. unfold example_dispatch.
  rewrite (repeated_dispatch_accumulates_layers _ _ _ _ _ _ _ _ w);
    [reflexivity|by left|reflexivity..].
Defined.

Lemma koldstart_virtualenv_dispatch_witness :
  (example_dispatch (λ _, Ok 7) (example_world KoldstartDummyServer "virtualenv")).1
  = World
      (with_target_environment (example_handle KoldstartDummyServer "virtualenv")
         (default_dependencies_layer ["dbt-core"]))
      [EnvironmentCreate
         (with_target_environment (example_handle KoldstartDummyServer "virtualenv")
            (default_dependencies_layer ["dbt-core"]));
       IsolatedFunction "https://host" "key"
         (IsolatedVirtualenv [PyStr "pandas"; PyStr "dbt-core"]) "S"
         (ExecutionRequest "def main(): pass" example_config () () None)].
Proof.
  unfold example_dispatch.
  rewrite (koldstart_virtualenv_dispatch (λ _, Ok ())
             (λ _, ["project"; "fal_scripts"]) (λ _ _, ["dbt-core"])
             (λ _, Ok 7) (λ _, Ok ["venv"]) (λ _ _ _, Ok "remote")
             (λ _ _ _ _, Ok "local") (λ _ _ _ _ _, Ok "koldstart")
             (example_world KoldstartDummyServer "virtualenv") ∅
             "def main(): pass" example_config () () "snowflake" 7
             [Layer "virtualenv" (Some (LayerConfiguration (Some ["pandas"]) None))]
             None);
    reflexivity.
Defined.

Lemma koldstart_conda_dispatch_witness :
  (example_dispatch (λ _, Ok 7) (example_world KoldstartDummyServer "conda")).2
  = Ok "koldstart".
Proof.
  unfold example_dispatch.
  rewrite (koldstart_conda_dispatch (λ _, Ok ())
             (λ _, ["project"; "fal_scripts"]) (λ _ _, ["dbt-core"])
             (λ _, Ok 7) (λ _, Ok ["venv"]) (λ _ _ _, Ok "remote")
             (λ _ _ _ _, Ok "local") (λ _ _ _ _ _, Ok "koldstart")
             (example_world KoldstartDummyServer "conda") ∅
             "def main(): pass" example_config () () "snowflake" 7
             [Layer "conda" (Some (LayerConfiguration (Some ["pandas"]) None))]
             None);
    reflexivity.
Defined.

Lemma koldstart_unsupported_type_after_create_witness :
  example_dispatch (λ _, Ok 7) (example_world KoldstartDummyServer "docker")
  = (World
       (with_target_environment (example_handle KoldstartDummyServer "docker")
          (default_dependencies_layer ["dbt-core"]))
       [EnvironmentCreate
          (with_target_environment (example_handle KoldstartDummyServer "docker")
             (default_dependencies_layer ["dbt-core"]))],
     Raise (Exception "Environment type not supported: docker")).
Proof.
  unfold example_dispatch.
  rewrite (koldstart_unsupported_type_after_create _ _ _ _ _ _ _ _ _ _ _ _ _ _ _ 7
             None);
    reflexivity.
Defined.

(* ================================================================== *)
(** * Further properties of packaging and unpacking *)

Section unpacking.

Implicit Types (fs : filesystem) (p q r rel dest root : path) (n : node)
  (m : zip_member) (zip : archive).


Lemma no_file_from_false fs names : ∀ base,
  no_file_from fs base names = false →
  ∃ r data, r `prefix_of` names ∧ r ≠ [] ∧ fs !! (base ++ r) = Some (File data).
Proof.
  induction names as [|name rest IH]; intros base; cbn; [done|].
  destruct (fs !! (base ++ [name])) as [[|data]|] eqn:E.
  - intros (r & data & Hr & Hne & Hfile)%IH. exists (name :: r), data.
    split; [by apply prefix_cons|]. split; [done|]. by rewrite <- app_assoc in Hfile.
  - intros _. exists [name], data. split; [apply prefix_cons, prefix_nil|done].
  - intros (r & data & Hr & Hne & Hfile)%IH. exists (name :: r), data.
    split; [by apply prefix_cons|]. split; [done|]. by rewrite <- app_assoc in Hfile.
Qed.

Lemma makedirs_from_blocked fs names : ∀ base,
  well_formed fs → no_file_from fs base names = false →
  ∃ e, makedirs_from base names fs = (fs, Raise e)
       ∧ (e = FileExistsError ∨ e = NotADirectoryError).
Proof.
  induction names as [|name rest IH]; intros base Hwf; cbn; [done|].
  destruct (fs !! (base ++ [name])) as [[|data]|] eqn:E.
  - by apply IH.
  - intros _. eexists. split; [done|]. destruct rest; auto.
  - intros (r & data & _ & _ & Hfile)%no_file_from_false.
    by rewrite (well_formed_below_none fs (base ++ [name]) r) in Hfile.
Qed.

Lemma no_file_from_snoc_absent fs names (x : string) : ∀ base,
  fs !! (base ++ names ++ [x]) = None →
  no_file_from fs base (names ++ [x]) = no_file_from fs base names.
Proof.
  induction names as [|name rest IH]; intros base Hnone; cbn in *.
  - by rewrite Hnone.
  - rewrite IH; [done|]. rewrite <- app_assoc. exact Hnone.
Qed.

(** X12: when a regular file lies on the way to an absent destination,
    unpacking raises [FileExistsError] or [NotADirectoryError] while
    making the parent directories, and the filesystem is left exactly as
    it was: nothing is created and nothing extracted. *)
Theorem unpack_blocked_by_file zip dest fs :
  well_formed fs → path_exists fs dest = false → creatable fs dest = false →
  ∃ e, unpack_local_packages (Some zip) dest fs = (fs, Raise e)
       ∧ (e = FileExistsError ∨ e = NotADirectoryError).
Proof.
  intros Hwf Hex Hblocked.
  pose proof Hex as Hnone. apply path_exists_false in Hnone.
  assert (dest ≠ []) as Hne.
  { intros ->. destruct Hwf as [Hroot _]. congruence. }
  destruct (exists_last Hne) as (up & x & Hdest).
  unfold creatable in Hblocked. rewrite Hdest in Hblocked, Hnone.
  rewrite no_file_from_snoc_absent in Hblocked by done.
  destruct (makedirs_from_blocked fs up [] Hwf Hblocked) as (e & Hrun & He).
  exists e. split; [|done].
  unfold unpack_local_packages. cbv [mbind action_bind get_state].
  rewrite Hex, Hdest, parent_snoc. unfold makedirs. by rewrite Hrun.
Qed.


End unpacking.


Lemma unpack_blocked_by_file_witness :
  ∃ e, unpack_local_packages (Some example_archive)
         ["proj"; "scripts"; "a.py"; "fal_scripts"] example_source
       = (example_source, Raise e).
Proof.
  destruct (unpack_blocked_by_file example_archive
              ["proj"; "scripts"; "a.py"; "fal_scripts"] example_source)
    as (e & Hrun & _).
  - unfold well_formed. apply (bool_decide_unpack _). by vm_compute.
  - reflexivity.
  - reflexivity.
  - by exists e.
Defined.


(* ================================================================== *)
(** * Further properties of the isolated runner *)

Section isolated_runner.

Context {Manifest MacroManifest Adapter AdapterResponse : Type}.
Context (get_fal_scripts_path : runtime_config → path)
        (reconstruct_adapter :
           runtime_config → Manifest → MacroManifest → result Adapter)
        (run_with_adapter :
           string → Adapter → runtime_config → action filesystem AdapterResponse).

#[local] Abbreviation runner :=
  (_isolated_runner get_fal_scripts_path reconstruct_adapter run_with_adapter).

(** X14: the user's entry point runs only once the adapter is rebuilt and
    the scripts are in place.  If rebuilding the adapter raises, or if an
    archive was shipped and the scripts path already exists, the exception
    is returned with the filesystem untouched, whatever the entry point
    would have done; when no archive was shipped, the entry point runs on
    the filesystem as it is. *)
Theorem isolated_runner_guards (request : @execution_request Manifest MacroManifest)
    (fs : filesystem) :
  let config := request_config request in
  let rebuilt :=
    reconstruct_adapter config (request_manifest request)
      (request_macro_manifest request) in
  (∀ e, rebuilt = Raise e → runner request fs = (fs, Raise e))
  ∧ (∀ adapter zip,
       rebuilt = Ok adapter → local_packages request = Some zip →
       path_exists fs (get_fal_scripts_path config) = true →
       runner request fs
       = (fs, Raise (AssertionError
                       ("Path: " +:+ path_str (get_fal_scripts_path config)
                        +:+ " already exists in isolate cloud."))))
  ∧ (∀ adapter,
       rebuilt = Ok adapter → local_packages request = None →
       runner request fs
       = run_with_adapter (request_code request) adapter config fs).
Proof.
  intros config rebuilt. unfold _isolated_runner.
  cbv [mbind action_bind lift]. fold config. fold rebuilt.
  split; [|split].
  - by intros e ->.
  - intros adapter zip -> -> Hex. unfold unpack_local_packages.
    cbv [mbind action_bind get_state]. by rewrite Hex.
  - by intros adapter -> ->.
Qed.


End isolated_runner.

Lemma isolated_runner_guards_witness :
  _isolated_runner (Manifest := ()) (MacroManifest := ()) (Adapter := ())
    (AdapterResponse := string)
    (λ _, ["srv"]) (λ _ _ _, Ok ())
    (λ _ _ _ fs, (<[ ["srv"; "out"] := File [] ]> fs, Ok "ran"))
    (ExecutionRequest "def main(): pass" example_config () ()
       (Some example_archive))
    example_host
  = (example_host,
     Raise (AssertionError "Path: /srv already exists in isolate cloud.")).
Proof.
  eapply (isolated_runner_guards (Manifest := ()) (MacroManifest := ())
            (Adapter := ()) (AdapterResponse := string));
    reflexivity.
Defined.


(* ================================================================== *)
(** * Well-formedness is kept by unpacking *)

Section keeping_well_formed.

Implicit Types (fs : filesystem) (p q dest : path) (n : node).

Lemma keeps_ret {A : Type} (a : A) : keeps_well_formed (mret a).
Proof. by intros fs. Qed.

Lemma keeps_raise {A : Type} (e : pyexn) : keeps_well_formed (raise (A := A) e).
Proof. by intros fs. Qed.

Lemma keeps_bind {A B : Type} (act : action filesystem A)
    (k : A → action filesystem B) :
  keeps_well_formed act → (∀ a, keeps_well_formed (k a)) →
  keeps_well_formed (act ≫= k).
Proof.
  intros Hact Hk fs Hwf. cbv [mbind action_bind].
  specialize (Hact fs Hwf). destruct (act fs) as [fs1 [a|e]]; [|done].
  by apply Hk.
Qed.

Lemma keeps_get_state {B : Type} (k : filesystem → action filesystem B) :
  (∀ s, keeps_well_formed (k s)) → keeps_well_formed (get_state ≫= k).
Proof. intros Hk fs Hwf. cbv [mbind action_bind get_state]. by apply Hk. Qed.

Lemma parent_shorter p : p ≠ [] → parent p ≠ p.
Proof.
  intros Hne Heq. apply (f_equal length) in Heq. unfold parent in Heq.
  rewrite length_take in Heq. destruct p; [done|cbn in Heq; lia].
Qed.

Lemma well_formed_insert fs p n :
  well_formed fs → fs !! parent p = Some Dir →
  fs !! p = None ∨ (n ≠ Dir ∧ fs !! p ≠ Some Dir) →
  well_formed (<[p := n]> fs).
Proof.
  intros [Hroot Hall] Hparent Hp.
  assert (p ≠ []) as Hne.
  { intros ->. destruct Hp as [?|[_ ?]]; congruence. }
  split; [by rewrite lookup_insert_ne|].
  intros q n' Hq. destruct (decide (q = [])) as [?|Hq0]; [by left|right].
  assert (fs !! p ≠ Some Dir) as Hnodir by (destruct Hp as [?|[_ ?]]; congruence).
  destruct (decide (p = q)) as [<-|Hpq].
  - by rewrite lookup_insert_ne by (by apply not_eq_sym, parent_shorter).
  - rewrite lookup_insert_ne in Hq by done.
    destruct (Hall q n' Hq) as [?|Hpar]; [done|].
    rewrite lookup_insert_ne; [done|]. intros Heq. by rewrite Heq in Hnodir.
Qed.

Lemma os_mkdir_keeps p : keeps_well_formed (os_mkdir p).
Proof.
  intros fs Hwf. unfold os_mkdir.
  destruct (fs !! p) eqn:Hp; [done|].
  destruct (fs !! parent p) as [[|?]|] eqn:Hparent; [|done..].
  apply well_formed_insert; auto.
Qed.

Lemma write_file_keeps p data : keeps_well_formed (write_file p data).
Proof.
  intros fs Hwf. unfold write_file.
  destruct (fs !! p) as [[|d]|] eqn:Hp; [done| |];
    (destruct (fs !! parent p) as [[|?]|] eqn:Hparent; [|done..]);
    apply well_formed_insert; auto.
  right. split; [done|congruence].
Qed.

Lemma makedirs_from_keeps names : ∀ base fs,
  well_formed fs → fs !! base = Some Dir →
  well_formed (makedirs_from base names fs).1.
Proof.
  induction names as [|name rest IH]; intros base fs Hwf Hbase; cbn; [done|].
  destruct (fs !! (base ++ [name])) as [[|?]|] eqn:E; [by apply IH|done|].
  apply IH; [|apply lookup_insert_eq].
  apply well_formed_insert; [done|by rewrite parent_snoc|by left].
Qed.

Lemma makedirs_keeps p : keeps_well_formed (makedirs p).
Proof. intros fs Hwf. apply makedirs_from_keeps; [done|apply Hwf]. Qed.

Lemma extract_member_keeps dest (m : zip_member) :
  keeps_well_formed (extract_member dest m).
Proof.
  unfold extract_member. apply keeps_get_state. intros s.
  apply keeps_bind.
  - destruct (negb _); [apply makedirs_keeps|apply keeps_ret].
  - intros _. destruct (content m).
    + apply keeps_get_state. intros s'.
      destruct (is_dir s' _); [apply keeps_ret|apply os_mkdir_keeps].
    + apply write_file_keeps.
Qed.

Lemma extractall_keeps dest (zip : archive) : keeps_well_formed (extractall dest zip).
Proof.
  unfold extractall. induction zip as [|m zip IH]; cbn; [apply keeps_ret|].
  apply keeps_bind; [apply extract_member_keeps|done].
Qed.

(** X16: unpacking never leaves the filesystem ill formed.  For every
    archive (members may clash), every destination and every outcome,
    including an exception raised half-way through the extraction, the
    root is still a directory afterwards and everything that exists still
    lies in a directory. *)
Theorem unpack_keeps_well_formed (packages : option archive) (dest : path)
    (fs : filesystem) :
  well_formed fs →
  well_formed (unpack_local_packages packages dest fs).1.
Proof.
  revert fs. change (keeps_well_formed (unpack_local_packages packages dest)).
  unfold unpack_local_packages. destruct packages as [zip|]; [|apply keeps_ret].
  apply keeps_get_state. intros s.
  destruct (path_exists s dest); [apply keeps_raise|].
  apply keeps_bind; [apply makedirs_keeps|]. intros _. apply extractall_keeps.
Qed.

End keeping_well_formed.

Lemma unpack_keeps_well_formed_witness :
  well_formed
    (unpack_local_packages
       (Some [ZipMember ["a"] (File [Byte.x61]);
              ZipMember ["a"; "b"] (File [Byte.x62])])
       ["srv"; "fal_scripts"] example_host).1
  ∧ (unpack_local_packages
       (Some [ZipMember ["a"] (File [Byte.x61]);
              ZipMember ["a"; "b"] (File [Byte.x62])])
       ["srv"; "fal_scripts"] example_host).2
    = Raise NotADirectoryError.
Proof.
  split; [|reflexivity].
  apply (unpack_keeps_well_formed _ ["srv"; "fal_scripts"] example_host).
  unfold well_formed. apply (bool_decide_unpack _). by vm_compute.
Defined.

(* ================================================================== *)
(** * Failures on the local branch *)

Section local_dispatch.

Context {Manifest MacroManifest AdapterResponse ConnectionKey : Type}.
Context (read_entry : path → result ())
        (get_fal_scripts_path : runtime_config → path)
        (get_default_pip_dependencies : string → bool → list string)
        (environment_create : environment → result ConnectionKey)
        (stage_create : list string → result path)
        (connection_run :
           environment → ConnectionKey
           → @execution_request Manifest MacroManifest → result AdapterResponse)
        (ipc_run :
           environment → ConnectionKey → list path
           → @execution_request Manifest MacroManifest → result AdapterResponse)
        (isolated_function :
           string → string → isolated_env → string
           → @execution_request Manifest MacroManifest → result AdapterResponse).

#[local] Abbreviation dispatch :=
  (run_in_environment_with_adapter read_entry get_fal_scripts_path
     get_default_pip_dependencies environment_create stage_create
     connection_run ipc_run isolated_function).

(** X17: on the local branch the environment is created before the stage
    of default dependencies, and a failure of either is returned as it is:
    when [environment.create()] raises the stage is not created, and when
    [stage.create()] raises no channel is opened and nothing is run.  The
    handle is not modified in either case. *)
Theorem local_branch_failures (w : @world Manifest MacroManifest ConnectionKey)
    (fs : filesystem) (code : string) (config : runtime_config)
    (manifest : Manifest) (macro_manifest : MacroManifest)
    (adapter_type class_name : string) :
  env_class (handle w) = LocalEnvironment class_name →
  let deps := get_default_pip_dependencies adapter_type false in
  (∀ e, environment_create (handle w) = Raise e →
        dispatch fs code config manifest macro_manifest adapter_type w
        = ({| handle := handle w;
              calls := calls w ++ [EnvironmentCreate (handle w)] |}, Raise e))
  ∧ (∀ key e, environment_create (handle w) = Ok key →
              stage_create deps = Raise e →
              dispatch fs code config manifest macro_manifest adapter_type w
              = ({| handle := handle w;
                    calls := calls w ++ [EnvironmentCreate (handle w);
                                         StageCreate deps] |}, Raise e)).
Proof.
  intros Hclass deps. unfold run_in_environment_with_adapter.
  cbv [mbind action_bind get_state].
  rewrite bool_decide_eq_false_2.
  2:{ rewrite Hclass. intros [?|[?|?%elem_of_nil]%elem_of_cons]%elem_of_cons; done. }
  unfold record_call. fold deps. split.
  - by intros e ->.
  - intros key e -> ->. cbn. by rewrite <- app_assoc.
Qed.

End local_dispatch.

Lemma local_branch_failures_witness :
  let w : @world () () nat :=
    World (Environment (LocalEnvironment "VirtualPythonEnvironment") "" "" "" [] "")
      [] in
  run_in_environment_with_adapter (AdapterResponse := string)
    (λ _, Ok ()) (λ _, ["project"; "fal_scripts"]) (λ _ _, ["dbt-core"])
    (λ _, Raise (RuntimeError "pip failed")) (λ _, Ok ["venv"])
    (λ _ _ _, Ok "remote") (λ _ _ _ _, Ok "local") (λ _ _ _ _ _, Ok "koldstart")
    ∅ "def main(): pass" example_config () () "snowflake" w
  = (World (handle w) [EnvironmentCreate (handle w)],
     Raise (RuntimeError "pip failed")).
Proof.
  intros w.
  eapply (local_branch_failures _ _ _ _ _ _ _ _ w ∅ _ _ () () _
            "VirtualPythonEnvironment"); reflexivity.
Defined.
